(** * Competitive-summary service: a shallow embedding of [main.py]

    The service has one interesting endpoint, [POST /analyze/{brand_name}]:
    it reads the competitor rows of a brand, formats them into a prompt,
    asks a completion service for a two-field analysis, and upserts the
    analysis into the [competitor_summary] table.

    Python values are a small inductive type, rows are finite maps from
    column names to values (Python dicts), the two external clients are a
    record of functions that either return or raise, and the handler runs
    in a state-and-exception monad over the summary table, the log and
    the trace of calls issued to the table. *)

From stdpp Require Import gmap strings list pretty.


(** ** Python values *)

Module Py.

(** The values a JSON row of the store can hold in a text or key column. *)
Inductive pyval :=
| VNone
| VStr (s : string)
| VInt (n : Z)
| VBool (b : bool).

#[global] Instance pyval_eq_dec : EqDecision pyval.
Proof. solve_decision. Defined.

(** [str(v)], which is also what an f-string replacement field
    [{v}] produces. *)
Definition str (v : pyval) : string :=
  match v with
  | VNone => "None"
  | VStr s => s
  | VInt n => pretty n
  | VBool true => "True"
  | VBool false => "False"
  end.

(** [d.get(key, dflt)] *)
Definition get (d : gmap string pyval) (key : string) (dflt : pyval) : pyval :=
  match d !! key with
  | Some v => v
  | None => dflt
  end.

(** [t in s] for two strings. *)
Fixpoint contains (t s : string) : bool :=
  String.prefix t s ||
  match s with
  | EmptyString => false
  | String _ s' => contains t s'
  end.

(** Exceptions: FastAPI's [HTTPException], which derives from
    [Exception], and every other exception, kept as its class name and
    its message. *)
Inductive exn :=
| HTTPException (status_code : Z) (detail : string)
| PyError (cls : string) (msg : string).

(** [str(e)]. Starlette's [HTTPException.__str__] is
    ["{status_code}: {detail}"]. *)
Definition str_exn (e : exn) : string :=
  match e with
  | HTTPException sc d => pretty sc +:+ ": " +:+ d
  | PyError _ msg => msg
  end.

Inductive outcome (A : Type) :=
| Returned (a : A)
| Raised (e : exn).
Arguments Returned {A} a.
Arguments Raised {A} e.

End Py.
Import Py.

(** ** Prompt construction (the first half of [analyze_competitive_landscape]) *)

(** The line feed that ends each line of a triple-quoted literal. *)
Definition nl : string := String (Ascii.ascii_of_nat 10) EmptyString.

Definition NA : pyval := VStr "N/A".

(** The body of the [for comp in competitors_data] loop: the text appended
    to [competitors_overview] for one competitor. *)
Definition competitor_block (comp : gmap string pyval) : string :=
  nl +:+ "        Competitor: " +:+ str (get comp "competitor_name" NA) +:+
  nl +:+ "        Program Summary: " +:+ str (get comp "program_summary" NA) +:+
  nl +:+ "        Market Position: " +:+ str (get comp "competitor_positioning" NA) +:+
  nl +:+ "        Rewards & Benefits: " +:+ str (get comp "competitor_rewards_benefits" NA) +:+
  nl +:+ "        User Feedback: " +:+ str (get comp "competitor_user_feedback" NA) +:+
  nl +:+ "        Strengths: " +:+ str (get comp "competitor_strength" NA) +:+
  nl +:+ "        Weaknesses: " +:+ str (get comp "competitor_weakness" NA) +:+
  nl +:+ "        Opportunities: " +:+ str (get comp "competitor_opportunity" NA) +:+
  nl +:+ "        Threats: " +:+ str (get comp "competitor_threats" NA) +:+
  nl +:+ "        ---" +:+
  nl +:+ "        ".

(** [competitors_overview = ""; for comp in competitors_data:
    competitors_overview += block(comp)] *)
Definition competitors_overview (competitors_data : list (gmap string pyval)) : string :=
  fold_left (fun acc comp => acc +:+ competitor_block comp) competitors_data "".

Definition prompt (brand_name : string) (competitors_data : list (gmap string pyval)) : string :=
  "Analyze this competitive landscape data for " +:+ brand_name +:+ "'s market:" +:+
  nl +:+
  nl +:+ "    " +:+ competitors_overview competitors_data +:+
  nl +:+
  nl +:+ "    Create two comprehensive analyses:" +:+
  nl +:+ "    1. A summary of the competitive loyalty landscape using the data about the competitors loyalty programs." +:+
  nl +:+ "    2. Specific gaps and opportunities that " +:+ brand_name +:+ " could exploit when designing their loyalty program, be very specific and reference specific examples from the competitor data." +:+
  nl +:+
  nl +:+ "    Consider:" +:+
  nl +:+ "    - Common strengths and weaknesses across competitors" +:+
  nl +:+ "    - Unmet customer needs" +:+
  nl +:+ "    - Market gaps" +:+
  nl +:+ "    - Innovative opportunities" +:+
  nl +:+ "    - Potential differentiation strategies".

Definition system_content (brand_name : string) : string :=
  "You are a strategic analyst helping " +:+ brand_name +:+ " design a competitive loyalty program.".

(** The nine labelled lines of a block: the label printed and the key read. *)
Definition labelled_fields : list (string * string) :=
  [ ("Competitor", "competitor_name");
    ("Program Summary", "program_summary");
    ("Market Position", "competitor_positioning");
    ("Rewards & Benefits", "competitor_rewards_benefits");
    ("User Feedback", "competitor_user_feedback");
    ("Strengths", "competitor_strength");
    ("Weaknesses", "competitor_weakness");
    ("Opportunities", "competitor_opportunity");
    ("Threats", "competitor_threats") ].

(** One labelled line, as it stands in the block. *)
Definition labelled_line (comp : gmap string pyval) (f : string * string) : string :=
  nl +:+ "        " +:+ f.1 +:+ ": " +:+ str (get comp f.2 NA).

Definition delimiter_line : string := nl +:+ "        ---" +:+ nl +:+ "        ".

(** ** The two response models *)

Module CompetitiveLandscape.
(** [class CompetitiveLandscape(BaseModel)] *)
Record t := mk { competitive_summary : string; gaps_opportunities : string }.
End CompetitiveLandscape.

Module CompetitiveLandscapeResponse.
(** [class CompetitiveLandscapeResponse(BaseModel)] *)
Record t := mk {
  brand_name : string;
  competitive_summary : string;
  gaps_opportunities : string
}.
End CompetitiveLandscapeResponse.

(** ** The world the handler runs in *)

Inductive level := INFO | ERROR.

(** The three requests the code sends to the [competitor_summary] table. *)
Inductive store_call :=
| SelectId (brand : string)
    (* .select('id').eq('brand_name', brand).execute() *)
| Update (payload : gmap string pyval) (brand : string)
    (* .update(payload).eq('brand_name', brand).execute() *)
| Insert (payload : gmap string pyval).
    (* .insert(payload).execute() *)

#[global] Instance store_call_eq_dec : EqDecision store_call.
Proof. solve_decision. Defined.

(** A write is an update or an insert. *)
Definition is_write (c : store_call) : bool :=
  match c with
  | SelectId _ => false
  | Update _ _ | Insert _ => true
  end.

Record world := mk_world {
  competitor_summary : list (gmap string pyval);  (* the rows of the table, oldest first *)
  next_id : Z;                                    (* the table's id sequence *)
  calls : list store_call;                        (* requests sent to the table, oldest first *)
  log : list (level * string)                     (* records emitted through [logger] *)
}.

(** The external collaborators, as seen from one request: each call either
    returns or raises. [competitors_select] is the response data of the
    nine-column query on the [competitors] table; [chat_completions_parse]
    is the parsed message of the first choice; [store_fault] says which
    requests to the summary table fail, and with what. *)
Record services := mk_services {
  competitors_select : string -> outcome (list (gmap string pyval));
  chat_completions_parse :
    string -> list (string * string) -> outcome CompetitiveLandscape.t;
  store_fault : store_call -> option exn
}.

(** ** State and exception monad *)

Definition M (A : Type) : Type := world -> outcome A * world.

Definition ret {A} (a : A) : M A := fun w => (Returned a, w).

Definition raise {A} (e : exn) : M A := fun w => (Raised e, w).

Definition bind {A B} (c : M A) (k : A -> M B) : M B :=
  fun w =>
    match c w with
    | (Returned a, w') => k a w'
    | (Raised e, w') => (Raised e, w')
    end.

(** [try: body except Exception as e: handler(e)] *)
Definition try_except {A} (body : M A) (handler : exn -> M A) : M A :=
  fun w =>
    match body w with
    | (Returned a, w') => (Returned a, w')
    | (Raised e, w') => handler e w'
    end.

Notation "x <- c ;; k" := (bind c (fun x => k))
  (at level 100, c at next level, right associativity).
Notation "c ;; k" := (bind c (fun _ => k))
  (at level 100, right associativity).

(** The world after one more log record, after one more request to the
    table, and with the table's rows and id sequence replaced. *)
Definition logged (l : level) (msg : string) (w : world) : world :=
  mk_world (competitor_summary w) (next_id w) (calls w) (log w ++ [(l, msg)]).

Definition sent (c : store_call) (w : world) : world :=
  mk_world (competitor_summary w) (next_id w) (calls w ++ [c]) (log w).

Definition stored (tbl : list (gmap string pyval)) (nid : Z) (w : world) : world :=
  mk_world tbl nid (calls w) (log w).

Definition logger_info (msg : string) : M unit :=
  fun w => (Returned tt, logged INFO msg w).

Definition logger_error (msg : string) : M unit :=
  fun w => (Returned tt, logged ERROR msg w).

(** [l[0]] *)
Definition index0 {A} (l : list A) : M A :=
  match l with
  | x :: _ => ret x
  | [] => raise (PyError "IndexError" "list index out of range")
  end.

(** ** The [competitor_summary] table *)

(** The filter [.eq('brand_name', brand)]. *)
Definition brand_is (brand : string) (row : gmap string pyval) : bool :=
  bool_decide (row !! "brand_name" = Some (VStr brand)).

Definition rows_of (brand : string) (tbl : list (gmap string pyval))
  : list (gmap string pyval) :=
  List.filter (brand_is brand) tbl.

(** The projection [.select('id')]. *)
Definition project_id (row : gmap string pyval) : gmap string pyval :=
  match row !! "id" with
  | Some v => {[ "id" := v ]}
  | None => ∅
  end.

(** Setting the columns of [payload] in a row, the others staying. *)
Definition set_columns (payload row : gmap string pyval) : gmap string pyval :=
  payload ∪ row.

(** The rows after [.update(payload).eq('brand_name', brand)]. *)
Definition update_rows (payload : gmap string pyval) (brand : string)
    (tbl : list (gmap string pyval)) : list (gmap string pyval) :=
  (fun row => if brand_is brand row then set_columns payload row else row) <$> tbl.

(** A request is recorded in [calls]; when [store_fault] has an error for
    it, it raises that error and the table stays as it is; otherwise it acts
    on the table and returns the response data: the selected projections,
    the updated rows, or the inserted row with the id the table gave it. *)
Definition execute (sv : services) (c : store_call) : M (list (gmap string pyval)) :=
  fun w =>
    let tbl := competitor_summary w in
    match store_fault sv c with
    | Some e => (Raised e, sent c w)
    | None =>
        match c with
        | SelectId brand =>
            (Returned (project_id <$> rows_of brand tbl), sent c w)
        | Update payload brand =>
            (Returned (set_columns payload <$> rows_of brand tbl),
             stored (update_rows payload brand tbl) (next_id w) (sent c w))
        | Insert payload =>
            let row := <[ "id" := VInt (next_id w) ]> payload in
            (Returned [row],
             stored (tbl ++ [row]) (next_id w + 1) (sent c w))
        end
    end.

(** ** The functions of [main.py] *)

Definition get_competitors_data (sv : services) (brand_name : string)
  : M (list (gmap string pyval)) :=
  fun w => (competitors_select sv brand_name, w).

Definition analyze_competitive_landscape (sv : services) (brand_name : string)
    (competitors_data : list (gmap string pyval)) : M CompetitiveLandscape.t :=
  fun w =>
    (chat_completions_parse sv "gpt-4o-2024-11-20"
       [ ("system", system_content brand_name);
         ("user", prompt brand_name competitors_data) ],
     w).

Definition update_payload (analysis : CompetitiveLandscape.t) : gmap string pyval :=
  {[ "competitive_summary" := VStr (CompetitiveLandscape.competitive_summary analysis);
     "gaps_opportunities" := VStr (CompetitiveLandscape.gaps_opportunities analysis) ]}.

Definition insert_payload (brand_name : string) (analysis : CompetitiveLandscape.t)
  : gmap string pyval :=
  {[ "brand_name" := VStr brand_name;
     "competitive_summary" := VStr (CompetitiveLandscape.competitive_summary analysis);
     "gaps_opportunities" := VStr (CompetitiveLandscape.gaps_opportunities analysis) ]}.

Definition save_landscape_analysis (sv : services) (brand_name : string)
    (analysis : CompetitiveLandscape.t) : M (gmap string pyval) :=
  try_except
    (existing <- execute sv (SelectId brand_name) ;;
     response <-
       match existing with
       | _ :: _ => execute sv (Update (update_payload analysis) brand_name)
       | [] => execute sv (Insert (insert_payload brand_name analysis))
       end ;;
     logger_info ("Successfully saved landscape analysis for " +:+ brand_name) ;;
     index0 response)
    (fun e =>
       logger_error ("Error saving analysis: " +:+ str_exn e) ;;
       raise e).

(** The body of the [try] in [create_analysis]. *)
Definition create_analysis_body (sv : services) (brand_name : string)
  : M CompetitiveLandscapeResponse.t :=
  logger_info ("Starting analysis for brand: " +:+ brand_name) ;;
  competitors_data <- get_competitors_data sv brand_name ;;
  match competitors_data with
  | [] =>
      logger_error ("No competitor data found for " +:+ brand_name) ;;
      raise (HTTPException 404 "No competitor data found")
  | _ :: _ =>
      logger_info ("Found data for " +:+ pretty (length competitors_data) +:+ " competitors") ;;
      analysis <- analyze_competitive_landscape sv brand_name competitors_data ;;
      saved_analysis <- save_landscape_analysis sv brand_name analysis ;;
      ret (CompetitiveLandscapeResponse.mk brand_name
             (CompetitiveLandscape.competitive_summary analysis)
             (CompetitiveLandscape.gaps_opportunities analysis))
  end.

Definition create_analysis (sv : services) (brand_name : string)
  : M CompetitiveLandscapeResponse.t :=
  try_except
    (create_analysis_body sv brand_name)
    (fun e =>
       logger_error ("Error processing request: " +:+ str_exn e) ;;
       raise (HTTPException 500 (str_exn e))).

(** ** What the client receives *)

Inductive body :=
| Model (r : CompetitiveLandscapeResponse.t)   (* the JSON object of the response model *)
| Detail (detail : string)                      (* {"detail": detail} *)
| PlainText (text : string).

Record http_response := mk_response { status : Z; content : body }.

(** FastAPI's treatment of a path operation: a returned model is a 200, an
    [HTTPException] is answered with its status code and its detail, any
    other exception is the server's plain 500. *)
Definition respond (o : outcome CompetitiveLandscapeResponse.t) : http_response :=
  match o with
  | Returned r => mk_response 200 (Model r)
  | Raised (HTTPException sc d) => mk_response sc (Detail d)
  | Raised (PyError _ _) => mk_response 500 (PlainText "Internal Server Error")
  end.

(** [POST /analyze/{brand_name}] *)
Definition post_analyze (sv : services) (brand_name : string) (w : world)
  : http_response * world :=
  let '(o, w') := create_analysis sv brand_name w in (respond o, w').

(** The requests sent to the table since [w], given the later world [w']. *)
Definition calls_since (w w' : world) : list store_call :=
  drop (length (calls w)) (calls w').

(** The world in which the competitor rows are read, and the one in which
    the completion service and then the upsert are called. *)
Definition started (brand_name : string) (w : world) : world :=
  logged INFO ("Starting analysis for brand: " +:+ brand_name) w.

Definition fetched (brand_name : string) (data : list (gmap string pyval)) (w : world)
  : world :=
  logged INFO ("Found data for " +:+ pretty (length data) +:+ " competitors")
    (started brand_name w).

(** The messages sent to the completion service for the rows [data]. *)
Definition messages (brand_name : string) (data : list (gmap string pyval))
  : list (string * string) :=
  [ ("system", system_content brand_name); ("user", prompt brand_name data) ].

(** The text fields of the rows of a brand agree with an analysis. *)
Definition holds_analysis (analysis : CompetitiveLandscape.t) (row : gmap string pyval)
  : Prop :=
  row !! "competitive_summary"
  = Some (VStr (CompetitiveLandscape.competitive_summary analysis))
  /\ row !! "gaps_opportunities"
     = Some (VStr (CompetitiveLandscape.gaps_opportunities analysis)).

(** ** Vocabulary for the statements about the prompt *)

(** Concatenation of a list of strings, first element first. *)
Definition join (l : list string) : string := foldr String.append "" l.

(** [t] occurs in [s]. [contains] decides it. *)
Definition occurs_in (t s : string) : Prop := exists p q, s = p +:+ t +:+ q.

(** The text of the prompt before and after [competitors_overview]. *)
Definition prompt_prologue (brand_name : string) : string :=
  "Analyze this competitive landscape data for " +:+ brand_name +:+ "'s market:" +:+
  nl +:+ nl +:+ "    ".

Definition prompt_epilogue (brand_name : string) : string :=
  nl +:+
  nl +:+ "    Create two comprehensive analyses:" +:+
  nl +:+ "    1. A summary of the competitive loyalty landscape using the data about the competitors loyalty programs." +:+
  nl +:+ "    2. Specific gaps and opportunities that " +:+ brand_name +:+ " could exploit when designing their loyalty program, be very specific and reference specific examples from the competitor data." +:+
  nl +:+
  nl +:+ "    Consider:" +:+
  nl +:+ "    - Common strengths and weaknesses across competitors" +:+
  nl +:+ "    - Unmet customer needs" +:+
  nl +:+ "    - Market gaps" +:+
  nl +:+ "    - Innovative opportunities" +:+
  nl +:+ "    - Potential differentiation strategies".

(** ** Startup and shutdown ([lifespan]) *)

(** [os.getenv(key)] on the process environment. *)
Definition getenv (environ : gmap string string) (key : string) : option string :=
  environ !! key.

(** The truth value of an optional string: [None] and the empty string are
    false. *)
Definition truthy (v : option string) : bool :=
  match v with
  | Some (String _ _) => true
  | Some EmptyString | None => false
  end.

(** The part of [lifespan] before the [yield]. *)
Definition lifespan_startup (environ : gmap string string) : M unit :=
  logger_info "Starting up application..." ;;
  logger_info "Checking environment variables..." ;;
  if negb (forallb truthy [ getenv environ "OPENAI_API_KEY";
                            getenv environ "SUPABASE_URL";
                            getenv environ "SUPABASE_KEY" ])
  then logger_error "Missing required environment variables!"
  else logger_info "All required environment variables are set".

(** The part of [lifespan] after the [yield]. *)
Definition lifespan_shutdown : M unit :=
  logger_info "Shutting down application...".

(** ** Vocabulary for the statements about requests *)

(** The records logged since [w], given the later world [w']. *)
Definition logged_since (w w' : world) : list (level * string) :=
  drop (length (log w)) (log w').

(** Requests served one after the other, each by its own collaborators. *)
Definition serve (requests : list (services * string)) (w : world) : world :=
  fold_left (fun w1 rq => (post_analyze rq.1 rq.2 w1).2) requests w.

(** No brand has more than one summary row. *)
Definition one_row_per_brand (tbl : list (gmap string pyval)) : Prop :=
  forall brand, length (rows_of brand tbl) <= 1.

(** ** Sample data *)

Module Sample.

Definition globex : gmap string pyval :=
  {[ "competitor_name" := VStr "Globex";
     "program_summary" := VStr "points per purchase";
     "competitor_positioning" := VStr "premium";
     "competitor_rewards_benefits" := VStr "free shipping";
     "competitor_user_feedback" := VNone;
     "competitor_strength" := VStr "large partner network";
     "competitor_weakness" := VStr "slow redemption";
     "competitor_opportunity" := VStr "mobile wallet";
     "competitor_threats" := VStr "new entrants" ]}.

Definition first_analysis : CompetitiveLandscape.t :=
  CompetitiveLandscape.mk "crowded market" "no tiered rewards".

Definition second_analysis : CompetitiveLandscape.t :=
  CompetitiveLandscape.mk "two leaders" "instant redemption".

(** All collaborators up: Acme has one competitor, other brands none. *)
Definition healthy (analysis : CompetitiveLandscape.t) : services :=
  mk_services
    (fun brand => Returned (if decide (brand = "Acme") then [globex] else []))
    (fun _ _ => Returned analysis)
    (fun _ => None).

(** The completion service is down. *)
Definition completion_down : services :=
  mk_services
    (fun brand => Returned (if decide (brand = "Acme") then [globex] else []))
    (fun _ _ => Raised (PyError "APIConnectionError" "Connection error."))
    (fun _ => None).

(** The [competitors] query fails. *)
Definition competitors_down : services :=
  mk_services
    (fun _ => Raised (PyError "APIError" "permission denied for table competitors"))
    (fun _ _ => Returned first_analysis)
    (fun _ => None).

(** Writes to the summary table fail, reads succeed. *)
Definition writes_down : services :=
  mk_services
    (fun brand => Returned (if decide (brand = "Acme") then [globex] else []))
    (fun _ _ => Returned first_analysis)
    (fun c => if is_write c then Some (PyError "APIError" "statement timeout") else None).

Definition summary_row (id : Z) (brand cs go : string) : gmap string pyval :=
  {[ "id" := VInt id;
     "brand_name" := VStr brand;
     "competitive_summary" := VStr cs;
     "gaps_opportunities" := VStr go ]}.

Definition empty_world : world := mk_world [] 1 [] [].

(** One row for Acme and one for another brand. *)
Definition settled_world : world :=
  mk_world [ summary_row 1 "Acme" "old summary" "old gaps";
             summary_row 2 "Initech" "their summary" "their gaps" ] 3 [] [].

(** Two rows for Acme, as two first-time requests that both found no row
    leave them. *)
Definition duplicated_world : world :=
  mk_world [ summary_row 1 "Acme" "old summary" "old gaps";
             summary_row 2 "Acme" "old summary" "old gaps" ] 3 [] [].

End Sample.

(** * Properties *)

(** ** Strings *)

Section Strings.

Lemma append_cons (x : Ascii.ascii) (a b : string) :
  String x a +:+ b = String x (a +:+ b).
Proof. reflexivity. Qed.

Lemma append_assoc (a b c : string) : (a +:+ b) +:+ c = a +:+ b +:+ c.
Proof.
  induction a as [|x a IH]; [reflexivity |].
  by rewrite !append_cons, IH.
Qed.

Lemma append_nil_r (a : string) : a +:+ "" = a.
Proof.
  induction a as [|x a IH]; [reflexivity |].
  by rewrite append_cons, IH.
Qed.

Lemma prefix_append (t q : string) : String.prefix t (t +:+ q) = true.
Proof.
  induction t as [|x t IH].
  - by destruct q.
  - rewrite append_cons. simpl.
    destruct (Ascii.ascii_dec x x); [exact IH | congruence].
Qed.

Lemma prefix_split (t s : string) :
  String.prefix t s = true -> exists q, s = t +:+ q.
Proof.
  revert s. induction t as [|x t IH]; intros s H.
  - by exists s.
  - destruct s as [|y s]; simpl in H; [discriminate |].
    destruct (Ascii.ascii_dec x y) as [->|]; [| discriminate].
    destruct (IH _ H) as [q ->]. by exists q.
Qed.

Lemma contains_unfold (t s : string) :
  contains t s =
  String.prefix t s ||
  match s with EmptyString => false | String _ s' => contains t s' end.
Proof. by destruct s. Qed.

Lemma contains_spec (t s : string) : contains t s = true <-> occurs_in t s.
Proof.
  split.
  - induction s as [|y s IH]; rewrite contains_unfold; intros H.
    + rewrite orb_false_r in H. destruct (prefix_split _ _ H) as [q ->].
      by exists "", q.
    + apply orb_true_iff in H as [H|H].
      * destruct (prefix_split _ _ H) as [q Hq]. exists "", q. exact Hq.
      * destruct (IH H) as (p & q & ->). by exists (String y p), q.
  - intros (p & q & ->). induction p as [|y p IH].
    + change ("" +:+ t +:+ q) with (t +:+ q).
      rewrite contains_unfold, prefix_append. reflexivity.
    + rewrite append_cons, contains_unfold, IH. apply orb_true_r.
Qed.

Lemma occurs_in_refl (t : string) : occurs_in t t.
Proof. exists "", "". by rewrite append_nil_r. Qed.

Lemma occurs_in_append_l (t a s : string) : occurs_in t s -> occurs_in t (a +:+ s).
Proof. intros (p & q & ->). exists (a +:+ p), q. by rewrite append_assoc. Qed.

Lemma occurs_in_append_r (t a s : string) : occurs_in t s -> occurs_in t (s +:+ a).
Proof.
  intros (p & q & ->). exists p, (q +:+ a). by rewrite !append_assoc.
Qed.

Lemma occurs_in_trans (t u s : string) : occurs_in t u -> occurs_in u s -> occurs_in t s.
Proof.
  intros Htu (p & q & ->).
  by apply occurs_in_append_l, occurs_in_append_r.
Qed.

Lemma join_app (l1 l2 : list string) : join (l1 ++ l2) = join l1 +:+ join l2.
Proof.
  induction l1 as [|x l1 IH]; simpl; [reflexivity |].
  by rewrite IH, append_assoc.
Qed.

Lemma occurs_in_join (x : string) (l : list string) : x ∈ l -> occurs_in x (join l).
Proof.
  intros (l1 & l2 & ->)%list_elem_of_split.
  rewrite join_app. simpl.
  apply occurs_in_append_l, occurs_in_append_r, occurs_in_refl.
Qed.

End Strings.

(** ** The prompt *)

Section Prompt.

Implicit Types (comp : gmap string pyval) (data : list (gmap string pyval)).

Lemma append_nil_l (a : string) : "" +:+ a = a.
Proof. reflexivity. Qed.

(** Brings both sides of an equation between concatenations to the same
    shape: nested to the right, literals spelled out character by
    character. *)
Ltac normalise_appends :=
  rewrite ?append_assoc;
  repeat first [rewrite append_cons | rewrite append_nil_l | rewrite append_nil_r].

(** A block is its nine labelled lines, top to bottom, and then the
    delimiter line. *)
Lemma competitor_block_lines comp :
  competitor_block comp
  = join (labelled_line comp <$> labelled_fields) +:+ delimiter_line.
Proof.
  unfold competitor_block, labelled_fields, delimiter_line, join.
  cbn [fmap list_fmap foldr]. unfold labelled_line. cbn [fst snd].
  pose (f := fun k => str (get comp k NA)).
  repeat match goal with
         | |- context [str (get comp ?k NA)] =>
             change (str (get comp k NA)) with (f k)
         end.
  clearbody f. unfold nl.
  normalise_appends. reflexivity.
Qed.

(** The loop appends the blocks from left to right. *)
Lemma competitors_overview_join data :
  competitors_overview data = join (competitor_block <$> data).
Proof.
  unfold competitors_overview.
  rewrite <- (append_nil_l (join _)). generalize "".
  induction data as [|comp data IH]; intros acc; simpl.
  - by rewrite append_nil_r.
  - by rewrite IH, append_assoc.
Qed.

Lemma prompt_parts brand_name data :
  prompt brand_name data
  = prompt_prologue brand_name +:+ competitors_overview data +:+ prompt_epilogue brand_name.
Proof.
  unfold prompt, prompt_prologue, prompt_epilogue.
  by rewrite !append_assoc.
Qed.

Lemma labelled_line_occurs comp (f : string * string) :
  f ∈ labelled_fields ->
  occurs_in (f.1 +:+ ": " +:+ str (get comp f.2 NA)) (competitor_block comp).
Proof.
  intros Hf. rewrite competitor_block_lines.
  apply occurs_in_append_r.
  apply occurs_in_trans with (labelled_line comp f).
  - unfold labelled_line.
    apply occurs_in_append_l, occurs_in_append_l, occurs_in_refl.
  - apply occurs_in_join, list_elem_of_fmap. by exists f.
Qed.

Lemma block_occurs_in_prompt brand_name comp data :
  comp ∈ data -> occurs_in (competitor_block comp) (prompt brand_name data).
Proof.
  intros Hin. rewrite prompt_parts, competitors_overview_join.
  apply occurs_in_append_l, occurs_in_append_r, occurs_in_join.
  apply list_elem_of_fmap. by exists comp.
Qed.

Lemma get_absent comp key dflt : comp !! key = None -> get comp key dflt = dflt.
Proof. unfold get. by intros ->. Qed.

Lemma get_present comp key dflt v : comp !! key = Some v -> get comp key dflt = v.
Proof. unfold get. by intros ->. Qed.

(** C6: in the block of a competitor row that lacks the key
    [competitor_strength], the text "Strengths: N/A" occurs; and for each of
    the nine fields, a row that lacks its key gets the labelled line
    "<label>: N/A", which is one of the lines the block is made of. *)
Theorem missing_field_renders_placeholder comp :
  (comp !! "competitor_strength" = None ->
   contains "Strengths: N/A" (competitor_block comp) = true)
  /\ (forall label key,
        (label, key) ∈ labelled_fields ->
        comp !! key = None ->
        labelled_line comp (label, key) = nl +:+ "        " +:+ label +:+ ": N/A"
        /\ occurs_in (labelled_line comp (label, key)) (competitor_block comp)
        /\ contains (label +:+ ": N/A") (competitor_block comp) = true).
Proof.
  assert (forall label key,
             (label, key) ∈ labelled_fields ->
             comp !! key = None ->
             contains (label +:+ ": N/A") (competitor_block comp) = true) as Hocc.
  { intros label key Hf Hk. apply contains_spec.
    pose proof (labelled_line_occurs comp (label, key) Hf) as H.
    cbn [fst snd] in H. by rewrite (get_absent _ _ _ Hk) in H. }
  split.
  - intros Hk.
    apply (Hocc "Strengths" "competitor_strength"); [| exact Hk].
    unfold labelled_fields. set_solver.
  - intros label key Hf Hk. split; [| split].
    + unfold labelled_line. cbn [fst snd]. by rewrite (get_absent _ _ _ Hk).
    + rewrite competitor_block_lines.
      apply occurs_in_append_r, occurs_in_join, list_elem_of_fmap.
      by exists (label, key).
    + by apply (Hocc label key).
Qed.

Lemma missing_field_renders_placeholder_witness :
  contains "Strengths: N/A"
    (competitor_block {[ "competitor_name" := VStr "Globex";
                         "competitor_weakness" := VStr "few partners" ]}) = true.
Proof.
  apply (proj1 (missing_field_renders_placeholder
                  {[ "competitor_name" := VStr "Globex";
                     "competitor_weakness" := VStr "few partners" ]})).
  vm_compute. reflexivity.
Defined.

(** C7: the data-access read hands back the store's response as it is; the
    overview is the blocks of the rows, one per row, in the order of the
    list; every block ends with the delimiter line; and the text sent to
    the completion service is the prologue, that overview and the
    epilogue. *)
Theorem prompt_follows_row_order (sv : services) brand_name data (w : world) :
  get_competitors_data sv brand_name w = (competitors_select sv brand_name, w)
  /\ competitors_overview data = join (competitor_block <$> data)
  /\ (forall xs ys,
        competitors_overview (xs ++ ys) = competitors_overview xs +:+ competitors_overview ys)
  /\ (forall comp,
        competitor_block comp
        = join (labelled_line comp <$> labelled_fields) +:+ delimiter_line)
  /\ analyze_competitive_landscape sv brand_name data w
     = (chat_completions_parse sv "gpt-4o-2024-11-20"
          [ ("system", system_content brand_name);
            ("user", prompt_prologue brand_name
                     +:+ join (competitor_block <$> data)
                     +:+ prompt_epilogue brand_name) ],
        w).
Proof.
  split; [reflexivity |].
  split; [apply competitors_overview_join |].
  split.
  { intros xs ys. by rewrite !competitors_overview_join, fmap_app, join_app. }
  split; [apply competitor_block_lines |].
  unfold analyze_competitive_landscape.
  by rewrite prompt_parts, competitors_overview_join.
Qed.



End Prompt.

(** ** The summary table *)

Section Table.

Implicit Types (row payload : gmap string pyval) (tbl : list (gmap string pyval)).
Implicit Types (analysis : CompetitiveLandscape.t).

Lemma update_payload_lookup analysis (col : string) :
  update_payload analysis !! col =
  if decide (col = "competitive_summary")
  then Some (VStr (CompetitiveLandscape.competitive_summary analysis))
  else if decide (col = "gaps_opportunities")
       then Some (VStr (CompetitiveLandscape.gaps_opportunities analysis))
       else None.
Proof.
  unfold update_payload.
  repeat case_decide; subst; simplify_map_eq; reflexivity.
Qed.

Lemma set_columns_update_payload analysis row (col : string) :
  set_columns (update_payload analysis) row !! col =
  if decide (col = "competitive_summary")
  then Some (VStr (CompetitiveLandscape.competitive_summary analysis))
  else if decide (col = "gaps_opportunities")
       then Some (VStr (CompetitiveLandscape.gaps_opportunities analysis))
       else row !! col.
Proof.
  unfold set_columns.
  pose proof (update_payload_lookup analysis col) as H.
  repeat case_decide.
  - by apply lookup_union_Some_l.
  - by apply lookup_union_Some_l.
  - by apply lookup_union_r.
Qed.

Lemma brand_is_set_columns analysis brand row :
  brand_is brand (set_columns (update_payload analysis) row) = brand_is brand row.
Proof.
  unfold brand_is. rewrite set_columns_update_payload.
  repeat case_decide; try discriminate; reflexivity.
Qed.

Lemma rows_of_app brand tbl1 tbl2 :
  rows_of brand (tbl1 ++ tbl2) = rows_of brand tbl1 ++ rows_of brand tbl2.
Proof. apply List.filter_app. Qed.

Lemma rows_of_update_rows analysis brand tbl :
  rows_of brand (update_rows (update_payload analysis) brand tbl)
  = set_columns (update_payload analysis) <$> rows_of brand tbl.
Proof.
  unfold rows_of, update_rows.
  induction tbl as [|row tbl IH]; [reflexivity |].
  cbn [fmap list_fmap List.filter]. fold (@fmap list _).
  destruct (brand_is brand row) eqn:E.
  - rewrite brand_is_set_columns, E. cbn [fmap list_fmap]. by f_equal.
  - by rewrite E.
Qed.

Lemma update_rows_lookup payload brand tbl (i : nat) :
  update_rows payload brand tbl !! i
  = (fun row => if brand_is brand row then set_columns payload row else row)
      <$> tbl !! i.
Proof. unfold update_rows. apply list_lookup_fmap. Qed.

Lemma update_rows_length payload brand tbl :
  length (update_rows payload brand tbl) = length tbl.
Proof. unfold update_rows. apply length_fmap. Qed.

Lemma inserted_row_lookup analysis brand (nid : Z) :
  let row := <[ "id" := VInt nid ]> (insert_payload brand analysis) in
  row !! "id" = Some (VInt nid)
  /\ row !! "brand_name" = Some (VStr brand)
  /\ row !! "competitive_summary"
     = Some (VStr (CompetitiveLandscape.competitive_summary analysis))
  /\ row !! "gaps_opportunities"
     = Some (VStr (CompetitiveLandscape.gaps_opportunities analysis))
  /\ dom row = ({[ "id"; "brand_name"; "competitive_summary"; "gaps_opportunities" ]} : gset string).
Proof.
  unfold insert_payload. cbv zeta.
  split; [by simplify_map_eq |].
  split; [by simplify_map_eq |].
  split; [by simplify_map_eq |].
  split; [by simplify_map_eq |].
  rewrite !dom_insert_L, dom_singleton_L. set_solver.
Qed.

Lemma brand_is_inserted_row analysis brand (nid : Z) :
  brand_is brand (<[ "id" := VInt nid ]> (insert_payload brand analysis)) = true.
Proof.
  unfold brand_is. apply bool_decide_eq_true.
  apply (inserted_row_lookup analysis brand nid).
Qed.

End Table.

(** ** The upsert *)

Section Upsert.

Context (sv : services) (brand : string) (analysis : CompetitiveLandscape.t).

Implicit Types (w : world) (e : exn).

Lemma competitor_summary_sent c w :
  competitor_summary (sent c w) = competitor_summary w.
Proof. reflexivity. Qed.

Lemma next_id_sent c w : next_id (sent c w) = next_id w.
Proof. reflexivity. Qed.

Ltac run_save :=
  unfold save_landscape_analysis, try_except, bind, execute,
    logger_info, logger_error, index0, raise, ret;
  cbn [competitor_summary next_id calls log sent stored logged].

(** The existence check fails. *)
Lemma save_select_fault w e :
  store_fault sv (SelectId brand) = Some e ->
  save_landscape_analysis sv brand analysis w
  = (Raised e,
     logged ERROR ("Error saving analysis: " +:+ str_exn e)
       (sent (SelectId brand) w)).
Proof. intros Hs. run_save. by rewrite Hs. Qed.

(** A row exists: the update path. *)
Lemma save_update_path w row rows :
  store_fault sv (SelectId brand) = None ->
  rows_of brand (competitor_summary w) = row :: rows ->
  save_landscape_analysis sv brand analysis w
  = match store_fault sv (Update (update_payload analysis) brand) with
    | Some e =>
        (Raised e,
         logged ERROR ("Error saving analysis: " +:+ str_exn e)
           (sent (Update (update_payload analysis) brand)
              (sent (SelectId brand) w)))
    | None =>
        (Returned (set_columns (update_payload analysis) row),
         logged INFO ("Successfully saved landscape analysis for " +:+ brand)
           (stored
              (update_rows (update_payload analysis) brand (competitor_summary w))
              (next_id w)
              (sent (Update (update_payload analysis) brand)
                 (sent (SelectId brand) w))))
    end.
Proof.
  intros Hs Hrows. run_save. rewrite Hs, Hrows.
  cbn [fmap list_fmap].
  destruct (store_fault sv (Update (update_payload analysis) brand));
    [reflexivity |].
  by rewrite competitor_summary_sent, next_id_sent, Hrows.
Qed.

(** No row exists: the insert path. *)
Lemma save_insert_path w :
  store_fault sv (SelectId brand) = None ->
  rows_of brand (competitor_summary w) = [] ->
  save_landscape_analysis sv brand analysis w
  = match store_fault sv (Insert (insert_payload brand analysis)) with
    | Some e =>
        (Raised e,
         logged ERROR ("Error saving analysis: " +:+ str_exn e)
           (sent (Insert (insert_payload brand analysis))
              (sent (SelectId brand) w)))
    | None =>
        let row := <[ "id" := VInt (next_id w) ]> (insert_payload brand analysis) in
        (Returned row,
         logged INFO ("Successfully saved landscape analysis for " +:+ brand)
           (stored (competitor_summary w ++ [row]) (next_id w + 1)
              (sent (Insert (insert_payload brand analysis))
                 (sent (SelectId brand) w))))
    end.
Proof.
  intros Hs Hrows. run_save. rewrite Hs, Hrows.
  cbn [fmap list_fmap].
  destruct (store_fault sv (Insert (insert_payload brand analysis)));
    reflexivity.
Qed.

End Upsert.

(** Splits a run of the upsert into its five courses: the check fails; no
    row and the insert fails or succeeds; a row and the update fails or
    succeeds. *)
Ltac save_cases H :=
  match type of H with
  | save_landscape_analysis ?sv ?brand ?a ?w = _ =>
      let Hs := fresh "Hs" in
      let Hrows := fresh "Hrows" in
      let Hw := fresh "Hw" in
      destruct (store_fault sv (SelectId brand)) as [?e|] eqn:Hs;
      [ rewrite (save_select_fault sv brand a w _ Hs) in H
      | destruct (rows_of brand (competitor_summary w)) as [|?row ?rows] eqn:Hrows;
        [ rewrite (save_insert_path sv brand a w Hs Hrows) in H;
          destruct (store_fault sv (Insert (insert_payload brand a))) as [?e|] eqn:Hw
        | rewrite (save_update_path sv brand a w _ _ Hs Hrows) in H;
          destruct (store_fault sv (Update (update_payload a) brand)) as [?e|] eqn:Hw ] ];
      cbv zeta in H; injection H as <- <-
  end.

Ltac world_simpl :=
  unfold calls_since, logged, stored, sent in *;
  cbn [competitor_summary next_id calls log] in *;
  rewrite <- ?app_assoc, ?drop_app_length in *;
  cbn [app] in *.

Lemma update_payload_dom analysis :
  dom (update_payload analysis)
  = ({[ "competitive_summary"; "gaps_opportunities" ]} : gset string).
Proof.
  unfold update_payload. rewrite dom_insert_L, dom_singleton_L. reflexivity.
Qed.

Lemma insert_payload_dom brand analysis :
  dom (insert_payload brand analysis)
  = ({[ "brand_name"; "competitive_summary"; "gaps_opportunities" ]} : gset string).
Proof.
  unfold insert_payload. rewrite !dom_insert_L, dom_singleton_L. set_solver.
Qed.

(** Setting the two text columns of a row, written out. *)
Lemma set_columns_as_inserts (analysis : CompetitiveLandscape.t)
    (row : gmap string pyval) :
  set_columns (update_payload analysis) row
  = <[ "competitive_summary" :=
         VStr (CompetitiveLandscape.competitive_summary analysis) ]>
      (<[ "gaps_opportunities" :=
            VStr (CompetitiveLandscape.gaps_opportunities analysis) ]> row).
Proof.
  apply map_eq. intros col. rewrite set_columns_update_payload.
  destruct (decide (col = "competitive_summary")) as [->|Hcs].
  { by rewrite lookup_insert_eq. }
  rewrite lookup_insert_ne by done.
  destruct (decide (col = "gaps_opportunities")) as [->|Hgo].
  { by rewrite lookup_insert_eq. }
  by rewrite lookup_insert_ne.
Qed.

(** C4: the upsert first asks the table for the rows whose brand_name is the
    brand. When the answer is not empty it sends one update, filtered by
    brand_name, whose payload is the analysis's competitive_summary and
    gaps_opportunities; that update sets these two columns, to these two
    texts, in the rows of the brand and changes no other row, and the first
    updated row is returned. When the answer is empty it sends one insert
    whose payload is brand_name and the same two texts; that insert appends
    the row made of the payload and the id the table gives, and returns it.
    When a request to the table fails, nothing is written, the error is
    logged and the same error is raised again; and whatever the upsert
    raises, the last record it logs is that error. *)
Theorem upsert_checks_then_updates_or_inserts
    (sv : services) (brand : string) (analysis : CompetitiveLandscape.t)
    (w w' : world) (o : outcome (gmap string pyval)) :
  save_landscape_analysis sv brand analysis w = (o, w') ->
  (exists rest, calls w' = calls w ++ SelectId brand :: rest)
  /\ (store_fault sv (SelectId brand) = None ->
      rows_of brand (competitor_summary w) <> [] ->
      calls_since w w'
      = [ SelectId brand;
          Update
            {[ "competitive_summary" :=
                 VStr (CompetitiveLandscape.competitive_summary analysis);
               "gaps_opportunities" :=
                 VStr (CompetitiveLandscape.gaps_opportunities analysis) ]}
            brand ]
      /\ (store_fault sv
            (Update
               {[ "competitive_summary" :=
                    VStr (CompetitiveLandscape.competitive_summary analysis);
                  "gaps_opportunities" :=
                    VStr (CompetitiveLandscape.gaps_opportunities analysis) ]}
               brand) = None ->
          length (competitor_summary w') = length (competitor_summary w)
          /\ next_id w' = next_id w
          /\ (forall (i : nat) row,
                competitor_summary w !! i = Some row ->
                competitor_summary w' !! i
                = Some (if brand_is brand row
                        then <[ "competitive_summary" :=
                                  VStr (CompetitiveLandscape.competitive_summary analysis) ]>
                               (<[ "gaps_opportunities" :=
                                     VStr (CompetitiveLandscape.gaps_opportunities analysis) ]>
                                  row)
                        else row))
          /\ exists row rows,
               rows_of brand (competitor_summary w) = row :: rows
               /\ o = Returned
                        (<[ "competitive_summary" :=
                              VStr (CompetitiveLandscape.competitive_summary analysis) ]>
                           (<[ "gaps_opportunities" :=
                                 VStr (CompetitiveLandscape.gaps_opportunities analysis) ]>
                              row))))
  /\ (store_fault sv (SelectId brand) = None ->
      rows_of brand (competitor_summary w) = [] ->
      calls_since w w'
      = [ SelectId brand;
          Insert
            {[ "brand_name" := VStr brand;
               "competitive_summary" :=
                 VStr (CompetitiveLandscape.competitive_summary analysis);
               "gaps_opportunities" :=
                 VStr (CompetitiveLandscape.gaps_opportunities analysis) ]} ]
      /\ (store_fault sv
            (Insert
               {[ "brand_name" := VStr brand;
                  "competitive_summary" :=
                    VStr (CompetitiveLandscape.competitive_summary analysis);
                  "gaps_opportunities" :=
                    VStr (CompetitiveLandscape.gaps_opportunities analysis) ]}) = None ->
          competitor_summary w'
          = competitor_summary w
              ++ [ {[ "id" := VInt (next_id w);
                      "brand_name" := VStr brand;
                      "competitive_summary" :=
                        VStr (CompetitiveLandscape.competitive_summary analysis);
                      "gaps_opportunities" :=
                        VStr (CompetitiveLandscape.gaps_opportunities analysis) ]} ]
          /\ o = Returned
                   {[ "id" := VInt (next_id w);
                      "brand_name" := VStr brand;
                      "competitive_summary" :=
                        VStr (CompetitiveLandscape.competitive_summary analysis);
                      "gaps_opportunities" :=
                        VStr (CompetitiveLandscape.gaps_opportunities analysis) ]}))
  /\ (forall c e,
        c ∈ calls_since w w' ->
        store_fault sv c = Some e ->
        o = Raised e
        /\ log w' = log w ++ [(ERROR, "Error saving analysis: " +:+ str_exn e)]
        /\ competitor_summary w' = competitor_summary w)
  /\ (forall e,
        o = Raised e ->
        exists earlier,
          log w' = earlier ++ [(ERROR, "Error saving analysis: " +:+ str_exn e)]).
Proof.
  change ({[ "brand_name" := VStr brand;
             "competitive_summary" :=
               VStr (CompetitiveLandscape.competitive_summary analysis);
             "gaps_opportunities" :=
               VStr (CompetitiveLandscape.gaps_opportunities analysis) ]}
          : gmap string pyval)
    with (insert_payload brand analysis).
  change ({[ "competitive_summary" :=
               VStr (CompetitiveLandscape.competitive_summary analysis);
             "gaps_opportunities" :=
               VStr (CompetitiveLandscape.gaps_opportunities analysis) ]}
          : gmap string pyval)
    with (update_payload analysis).
  intros H.
  save_cases H; world_simpl.
  - (* the check fails *)
    split; [by eexists |]. split; [congruence |]. split; [congruence |]. split.
    + intros c e' ->%list_elem_of_singleton Hc.
      assert (e' = e) as -> by congruence. done.
    + intros e' [= <-]. by eexists.
  - (* insert fails *)
    split; [by eexists |]. split; [congruence |]. split.
    { intros _ _. split; [done | congruence]. }
    split.
    + intros c e' Hc Hf.
      assert (c = Insert (insert_payload brand analysis)) as ->.
      { apply elem_of_cons in Hc as [->|Hc]; [congruence |].
        by apply list_elem_of_singleton in Hc. }
      assert (e' = e) as -> by congruence. done.
    + intros e' [= <-]. by eexists.
  - (* insert succeeds *)
    split; [by eexists |]. split; [congruence |]. split.
    { intros _ _. done. }
    split.
    + intros c e' Hc Hf.
      apply elem_of_cons in Hc as [->|Hc]; [congruence |].
      apply list_elem_of_singleton in Hc as ->. congruence.
    + intros e' [=].
  - (* update fails *)
    split; [by eexists |]. split.
    { intros _ _. split; [done | congruence]. }
    split; [congruence |]. split.
    + intros c e' Hc Hf.
      assert (c = Update (update_payload analysis) brand) as ->.
      { apply elem_of_cons in Hc as [->|Hc]; [congruence |].
        by apply list_elem_of_singleton in Hc. }
      assert (e' = e) as -> by congruence. done.
    + intros e' [= <-]. by eexists.
  - (* update succeeds *)
    split; [by eexists |]. split.
    { intros _ _. split; [done |]. intros _.
      split; [apply update_rows_length |]. split; [done |]. split.
      - intros i r Hi. rewrite update_rows_lookup, Hi.
        cbn [fmap option_fmap option_map].
        destruct (brand_is brand r); [| done].
        by rewrite set_columns_as_inserts.
      - exists row, rows. split; [done |].
        by rewrite set_columns_as_inserts. }
    split; [congruence |]. split.
    + intros c e' Hc Hf.
      apply elem_of_cons in Hc as [->|Hc]; [congruence |].
      apply list_elem_of_singleton in Hc as ->. congruence.
    + intros e' [=].
Qed.

(** C10: when the existence check found a row, the upsert leaves the number
    of rows and the id sequence as they were; in every row, each column other
    than competitive_summary and gaps_opportunities, so id and brand_name
    among them, keeps its value; rows of other brands are untouched; and the
    one write sent to the table is the update whose payload has exactly the
    two text fields. *)
Theorem update_path_writes_only_text_fields
    (sv : services) (brand : string) (analysis : CompetitiveLandscape.t)
    (w w' : world) (o : outcome (gmap string pyval)) :
  save_landscape_analysis sv brand analysis w = (o, w') ->
  store_fault sv (SelectId brand) = None ->
  rows_of brand (competitor_summary w) <> [] ->
  length (competitor_summary w') = length (competitor_summary w)
  /\ next_id w' = next_id w
  /\ (forall (i : nat) row,
        competitor_summary w !! i = Some row ->
        exists row',
          competitor_summary w' !! i = Some row'
          /\ row' !! "id" = row !! "id"
          /\ row' !! "brand_name" = row !! "brand_name"
          /\ (forall col : string,
                col <> "competitive_summary" -> col <> "gaps_opportunities" ->
                row' !! col = row !! col)
          /\ (brand_is brand row = false -> row' = row))
  /\ (forall c,
        c ∈ calls_since w w' -> is_write c = true ->
        c = Update (update_payload analysis) brand)
  /\ dom (update_payload analysis)
     = ({[ "competitive_summary"; "gaps_opportunities" ]} : gset string).
Proof.
  intros H Hsel Hfound.
  pose proof (update_payload_dom analysis) as Hdu.
  save_cases H; world_simpl; try congruence.
  - (* the update fails: nothing is written *)
    split; [done |]. split; [done |]. split.
    + intros i r Hi. exists r. by repeat split.
    + split; [| done]. intros c Hc Hwr.
      apply elem_of_cons in Hc as [->|Hc]; [discriminate |].
      by apply list_elem_of_singleton in Hc.
  - (* the update succeeds *)
    split; [apply update_rows_length |]. split; [done |]. split.
    + intros i r Hi. rewrite update_rows_lookup, Hi. cbn [fmap option_fmap option_map].
      destruct (brand_is brand r) eqn:Hb.
      * eexists. split; [reflexivity |].
        rewrite !set_columns_update_payload.
        repeat split; try done.
        intros col H1 H2. rewrite set_columns_update_payload.
        by rewrite !decide_False.
      * exists r. by repeat split.
    + split; [| done]. intros c Hc Hwr.
      apply elem_of_cons in Hc as [->|Hc]; [discriminate |].
      by apply list_elem_of_singleton in Hc.
Qed.

(** ** The handler *)

Section Handler.

Context (sv : services) (brand : string).

Implicit Types (w : world) (e : exn).

Ltac run_handler :=
  unfold create_analysis_body, get_competitors_data,
    analyze_competitive_landscape, bind, logger_info, logger_error, raise, ret.

Lemma body_select_raises w e :
  competitors_select sv brand = Raised e ->
  create_analysis_body sv brand w = (Raised e, started brand w).
Proof. intros H. run_handler. by rewrite H. Qed.

Lemma body_no_rows w :
  competitors_select sv brand = Returned [] ->
  create_analysis_body sv brand w
  = (Raised (HTTPException 404 "No competitor data found"),
     logged ERROR ("No competitor data found for " +:+ brand) (started brand w)).
Proof. intros H. run_handler. by rewrite H. Qed.

Lemma body_completion_raises w data e :
  competitors_select sv brand = Returned data ->
  data <> [] ->
  chat_completions_parse sv "gpt-4o-2024-11-20" (messages brand data) = Raised e ->
  create_analysis_body sv brand w = (Raised e, fetched brand data w).
Proof.
  intros H Hne Hc. run_handler. rewrite H.
  destruct data as [|comp data]; [done |].
  unfold messages in Hc. by rewrite Hc.
Qed.

Lemma body_after_completion w data analysis :
  competitors_select sv brand = Returned data ->
  data <> [] ->
  chat_completions_parse sv "gpt-4o-2024-11-20" (messages brand data) = Returned analysis ->
  create_analysis_body sv brand w
  = match save_landscape_analysis sv brand analysis (fetched brand data w) with
    | (Returned _, w2) =>
        (Returned (CompetitiveLandscapeResponse.mk brand
                     (CompetitiveLandscape.competitive_summary analysis)
                     (CompetitiveLandscape.gaps_opportunities analysis)),
         w2)
    | (Raised e, w2) => (Raised e, w2)
    end.
Proof.
  intros H Hne Hc. run_handler. rewrite H.
  destruct data as [|comp data]; [done |].
  unfold messages in Hc. rewrite Hc. reflexivity.
Qed.

(** Whatever the body raises, the handler logs it and raises a 500 in its
    place, and the framework answers with that. *)
Lemma post_analyze_of_body w :
  post_analyze sv brand w
  = match create_analysis_body sv brand w with
    | (Returned r, w1) => (mk_response 200 (Model r), w1)
    | (Raised e, w1) =>
        (mk_response 500 (Detail (str_exn e)),
         logged ERROR ("Error processing request: " +:+ str_exn e) w1)
    end.
Proof.
  unfold post_analyze, create_analysis, try_except, bind, logger_error, raise.
  by destruct (create_analysis_body sv brand w) as [[r|e] w1].
Qed.

End Handler.

Lemma str_exn_not_found :
  str_exn (HTTPException 404 "No competitor data found")
  = "404: No competitor data found".
Proof. vm_compute. reflexivity. Qed.

(** A 200 is answered exactly when the rows were read and not empty, the
    completion service returned, and the upsert returned. *)
Lemma post_analyze_200 (sv : services) (brand : string) (w : world) :
  status (post_analyze sv brand w).1 = 200%Z ->
  exists data analysis row,
    competitors_select sv brand = Returned data
    /\ data <> []
    /\ chat_completions_parse sv "gpt-4o-2024-11-20" (messages brand data)
       = Returned analysis
    /\ save_landscape_analysis sv brand analysis (fetched brand data w)
       = (Returned row, (post_analyze sv brand w).2)
    /\ (post_analyze sv brand w).1
       = mk_response 200
           (Model (CompetitiveLandscapeResponse.mk brand
                     (CompetitiveLandscape.competitive_summary analysis)
                     (CompetitiveLandscape.gaps_opportunities analysis))).
Proof.
  rewrite post_analyze_of_body.
  destruct (competitors_select sv brand) as [data|e] eqn:Hsel.
  - destruct data as [|comp data].
    + rewrite (body_no_rows sv brand w Hsel). discriminate.
    + assert (comp :: data <> []) as Hne by done.
      destruct (chat_completions_parse sv "gpt-4o-2024-11-20"
                  (messages brand (comp :: data))) as [analysis|e] eqn:Hc.
      * rewrite (body_after_completion sv brand w _ analysis Hsel Hne Hc).
        destruct (save_landscape_analysis sv brand analysis
                    (fetched brand (comp :: data) w)) as [[row|e] w2] eqn:Hsave.
        -- intros _. by exists (comp :: data), analysis, row.
        -- discriminate.
      * rewrite (body_completion_raises sv brand w _ e Hsel Hne Hc). discriminate.
  - rewrite (body_select_raises sv brand w e Hsel). discriminate.
Qed.

(** What a returning upsert leaves in the table. *)
Lemma save_returned (sv : services) (brand : string)
    (analysis : CompetitiveLandscape.t) (w w2 : world) (row : gmap string pyval) :
  save_landscape_analysis sv brand analysis w = (Returned row, w2) ->
  row ∈ rows_of brand (competitor_summary w2)
  /\ Forall (holds_analysis analysis) (rows_of brand (competitor_summary w2))
  /\ length (rows_of brand (competitor_summary w2))
     = Nat.max 1 (length (rows_of brand (competitor_summary w)))
  /\ (rows_of brand (competitor_summary w) <> [] ->
      calls_since w w2 = [SelectId brand; Update (update_payload analysis) brand]
      /\ (fun r : gmap string pyval => r !! "id") <$> rows_of brand (competitor_summary w2)
         = (fun r : gmap string pyval => r !! "id") <$> rows_of brand (competitor_summary w))
  /\ (rows_of brand (competitor_summary w) = [] ->
      calls_since w w2 = [SelectId brand; Insert (insert_payload brand analysis)]).
Proof.
  intros H.
  destruct (store_fault sv (SelectId brand)) as [e|] eqn:Hs.
  { rewrite (save_select_fault sv brand analysis w e Hs) in H. discriminate. }
  destruct (rows_of brand (competitor_summary w)) as [|r rows] eqn:Hrows.
  - rewrite (save_insert_path sv brand analysis w Hs Hrows) in H.
    destruct (store_fault sv (Insert (insert_payload brand analysis))); [discriminate |].
    cbv zeta in H. injection H as <- <-. world_simpl.
    pose proof (inserted_row_lookup analysis brand (next_id w)) as (_ & _ & Hcs & Hgo & _).
    rewrite rows_of_app, Hrows. unfold rows_of at 1 2 3. cbn [List.filter app].
    rewrite brand_is_inserted_row.
    split; [set_solver |]. split; [by repeat constructor |].
    split; [reflexivity |]. split; [done | done].
  - rewrite (save_update_path sv brand analysis w r rows Hs Hrows) in H.
    destruct (store_fault sv (Update (update_payload analysis) brand)); [discriminate |].
    injection H as <- <-. world_simpl.
    rewrite rows_of_update_rows, Hrows.
    split; [cbn [fmap list_fmap]; set_solver |].
    split.
    { apply Forall_fmap, Forall_forall. intros r' _.
      unfold holds_analysis, compose. by rewrite !set_columns_update_payload. }
    split; [rewrite length_fmap; reflexivity |].
    split; [| done]. intros _. split; [done |].
    rewrite <- list_fmap_compose. apply list_fmap_ext. intros _ r' _.
    unfold compose. rewrite set_columns_update_payload. by rewrite !decide_False.
Qed.

(** ** The outcomes of a request *)

(** C1: when the competitor fetch returns no row, the handler raises a 404
    inside its own [try], catches it as any other exception, and answers 500
    with the detail "404: No competitor data found"; nothing is sent to the
    summary table, which stays as it was. *)
Theorem no_competitor_rows_is_answered_with_500
    (sv : services) (brand : string) (w : world) :
  competitors_select sv brand = Returned [] ->
  (post_analyze sv brand w).1
  = mk_response 500 (Detail "404: No competitor data found")
  /\ competitor_summary (post_analyze sv brand w).2 = competitor_summary w
  /\ next_id (post_analyze sv brand w).2 = next_id w
  /\ calls (post_analyze sv brand w).2 = calls w
  /\ log (post_analyze sv brand w).2
     = log w ++ [ (INFO, "Starting analysis for brand: " +:+ brand);
                  (ERROR, "No competitor data found for " +:+ brand);
                  (ERROR, "Error processing request: 404: No competitor data found") ].
Proof.
  intros Hsel.
  rewrite post_analyze_of_body, (body_no_rows sv brand w Hsel), str_exn_not_found.
  unfold started. world_simpl. by repeat split.
Qed.

Lemma no_competitor_rows_is_answered_with_500_witness :
  (post_analyze (Sample.healthy Sample.first_analysis) "Initech" Sample.settled_world).1
  = mk_response 500 (Detail "404: No competitor data found").
Proof.
  apply (no_competitor_rows_is_answered_with_500
           (Sample.healthy Sample.first_analysis) "Initech" Sample.settled_world).
  reflexivity.
Defined.

(** C2: when the brand has competitor rows and the completion call raises,
    the handler answers 500 with the error's message, and no request is sent
    to the summary table: its rows and its id sequence are as before. *)
Theorem completion_failure_leaves_store_unchanged
    (sv : services) (brand : string) (w : world)
    (data : list (gmap string pyval)) (e : exn) :
  competitors_select sv brand = Returned data ->
  data <> [] ->
  chat_completions_parse sv "gpt-4o-2024-11-20" (messages brand data) = Raised e ->
  (post_analyze sv brand w).1 = mk_response 500 (Detail (str_exn e))
  /\ competitor_summary (post_analyze sv brand w).2 = competitor_summary w
  /\ next_id (post_analyze sv brand w).2 = next_id w
  /\ calls (post_analyze sv brand w).2 = calls w.
Proof.
  intros Hsel Hne Hc.
  rewrite post_analyze_of_body, (body_completion_raises sv brand w data e Hsel Hne Hc).
  unfold fetched, started. world_simpl. by repeat split.
Qed.

Lemma completion_failure_leaves_store_unchanged_witness :
  (post_analyze Sample.completion_down "Acme" Sample.settled_world).1
  = mk_response 500 (Detail "Connection error.")
  /\ competitor_summary (post_analyze Sample.completion_down "Acme" Sample.settled_world).2
     = competitor_summary Sample.settled_world.
Proof.
  destruct (completion_failure_leaves_store_unchanged
              Sample.completion_down "Acme" Sample.settled_world
              [Sample.globex] (PyError "APIConnectionError" "Connection error."))
    as (H1 & H2 & _); [reflexivity | done | reflexivity |].
  split; [exact H1 | exact H2].
Defined.

(** C5: when the brand has competitor rows, the completion call returns an
    analysis and the upsert returns, the handler answers 200 with the body
    made of brand_name and the two fields of that analysis, and every
    summary row of the brand, of which there is at least one, holds these
    two values. *)
Theorem success_returns_the_persisted_analysis
    (sv : services) (brand : string) (w w2 : world)
    (data : list (gmap string pyval)) (analysis : CompetitiveLandscape.t)
    (row : gmap string pyval) :
  competitors_select sv brand = Returned data ->
  data <> [] ->
  chat_completions_parse sv "gpt-4o-2024-11-20" (messages brand data)
  = Returned analysis ->
  save_landscape_analysis sv brand analysis (fetched brand data w) = (Returned row, w2) ->
  post_analyze sv brand w
  = (mk_response 200
       (Model (CompetitiveLandscapeResponse.mk brand
                 (CompetitiveLandscape.competitive_summary analysis)
                 (CompetitiveLandscape.gaps_opportunities analysis))),
     w2)
  /\ rows_of brand (competitor_summary w2) <> []
  /\ Forall (holds_analysis analysis) (rows_of brand (competitor_summary w2)).
Proof.
  intros Hsel Hne Hc Hsave.
  rewrite post_analyze_of_body,
    (body_after_completion sv brand w data analysis Hsel Hne Hc), Hsave.
  destruct (save_returned sv brand analysis _ _ _ Hsave) as (Hin & Hall & _).
  split; [reflexivity |]. split; [| exact Hall].
  intros Hnil. rewrite Hnil in Hin. by apply elem_of_nil in Hin.
Qed.

Lemma success_returns_the_persisted_analysis_witness :
  (post_analyze (Sample.healthy Sample.first_analysis) "Acme" Sample.empty_world).1
  = mk_response 200
      (Model (CompetitiveLandscapeResponse.mk "Acme" "crowded market" "no tiered rewards")).
Proof.
  destruct (save_landscape_analysis (Sample.healthy Sample.first_analysis) "Acme"
              Sample.first_analysis
              (fetched "Acme" [Sample.globex] Sample.empty_world))
    as [[row|e] w2] eqn:Hsave.
  - destruct (success_returns_the_persisted_analysis
                (Sample.healthy Sample.first_analysis) "Acme" Sample.empty_world w2
                [Sample.globex] Sample.first_analysis row)
      as (H & _); [reflexivity | done | reflexivity | exact Hsave |].
    rewrite H. reflexivity.
  - vm_compute in Hsave. discriminate Hsave.
Defined.

(** C8: whatever exception the body of the handler raises, the answer is a
    500 whose detail is the text of that exception, and the error is logged;
    this is the answer when the competitor query raises, when the completion
    call raises and when the upsert raises; and the handler answers nothing
    but 200 and 500. *)
Theorem failures_collapse_to_500 (sv : services) (brand : string) (w : world) :
  (forall e w1,
      create_analysis_body sv brand w = (Raised e, w1) ->
      post_analyze sv brand w
      = (mk_response 500 (Detail (str_exn e)),
         logged ERROR ("Error processing request: " +:+ str_exn e) w1))
  /\ (forall e,
        competitors_select sv brand = Raised e ->
        (post_analyze sv brand w).1 = mk_response 500 (Detail (str_exn e)))
  /\ (forall data e,
        competitors_select sv brand = Returned data ->
        data <> [] ->
        chat_completions_parse sv "gpt-4o-2024-11-20" (messages brand data) = Raised e ->
        (post_analyze sv brand w).1 = mk_response 500 (Detail (str_exn e)))
  /\ (forall data analysis e w2,
        competitors_select sv brand = Returned data ->
        data <> [] ->
        chat_completions_parse sv "gpt-4o-2024-11-20" (messages brand data)
        = Returned analysis ->
        save_landscape_analysis sv brand analysis (fetched brand data w) = (Raised e, w2) ->
        (post_analyze sv brand w).1 = mk_response 500 (Detail (str_exn e)))
  /\ (status (post_analyze sv brand w).1 = 200%Z
      \/ exists e, (post_analyze sv brand w).1 = mk_response 500 (Detail (str_exn e))).
Proof.
  split; [| split; [| split; [| split]]].
  - intros e w1 Hbody. by rewrite post_analyze_of_body, Hbody.
  - intros e Hsel.
    by rewrite post_analyze_of_body, (body_select_raises sv brand w e Hsel).
  - intros data e Hsel Hne Hc.
    by rewrite post_analyze_of_body,
         (body_completion_raises sv brand w data e Hsel Hne Hc).
  - intros data analysis e w2 Hsel Hne Hc Hsave.
    by rewrite post_analyze_of_body,
         (body_after_completion sv brand w data analysis Hsel Hne Hc), Hsave.
  - rewrite post_analyze_of_body.
    destruct (create_analysis_body sv brand w) as [[r|e] w1].
    + by left.
    + right. by exists e.
Qed.

Lemma failures_collapse_to_500_witness :
  (post_analyze Sample.competitors_down "Acme" Sample.settled_world).1
  = mk_response 500 (Detail "permission denied for table competitors").
Proof.
  apply (proj1 (proj2 (failures_collapse_to_500
                         Sample.competitors_down "Acme" Sample.settled_world))
           (PyError "APIError" "permission denied for table competitors")).
  reflexivity.
Defined.

Lemma upsert_checks_then_updates_or_inserts_witness :
  calls_since Sample.settled_world
    (save_landscape_analysis (Sample.healthy Sample.first_analysis) "Acme"
       Sample.first_analysis Sample.settled_world).2
  = [ SelectId "Acme";
      Update {[ "competitive_summary" := VStr "crowded market";
                "gaps_opportunities" := VStr "no tiered rewards" ]} "Acme" ].
Proof.
  destruct (save_landscape_analysis (Sample.healthy Sample.first_analysis) "Acme"
              Sample.first_analysis Sample.settled_world) as [o w'] eqn:Hsave.
  destruct (upsert_checks_then_updates_or_inserts _ _ _ _ _ _ Hsave)
    as (_ & Hupdate & _).
  destruct Hupdate as (Hcalls & _); [reflexivity | by vm_compute |].
  exact Hcalls.
Defined.

Lemma update_path_writes_only_text_fields_witness :
  next_id
    (save_landscape_analysis (Sample.healthy Sample.second_analysis) "Acme"
       Sample.second_analysis Sample.settled_world).2
  = next_id Sample.settled_world.
Proof.
  destruct (save_landscape_analysis (Sample.healthy Sample.second_analysis) "Acme"
              Sample.second_analysis Sample.settled_world) as [o w'] eqn:Hsave.
  destruct (update_path_writes_only_text_fields _ _ _ _ _ _ Hsave)
    as (_ & Hid & _); [reflexivity | by vm_compute |].
  exact Hid.
Defined.

(** ** One row per brand *)

(** The rows of a brand after a request answered with 200: as many as
    before, and one when there was none. *)
Lemma rows_after_success (sv : services) (brand : string) (w : world) :
  status (post_analyze sv brand w).1 = 200%Z ->
  length (rows_of brand (competitor_summary (post_analyze sv brand w).2))
  = Nat.max 1 (length (rows_of brand (competitor_summary w))).
Proof.
  intros (data & analysis & row & _ & _ & _ & Hsave & _)%post_analyze_200.
  by destruct (save_returned sv brand analysis _ _ _ Hsave) as (_ & _ & Hlen & _).
Qed.

(** A table that holds two rows for a brand still holds two after a request
    for that brand is answered with 200: the update rewrites both. *)
Lemma duplicate_rows_survive_success :
  ~ (forall (sv : services) (brand : string) (w : world),
        status (post_analyze sv brand w).1 = 200%Z ->
        length (rows_of brand (competitor_summary (post_analyze sv brand w).2)) = 1).
Proof.
  intros H.
  specialize (H (Sample.healthy Sample.second_analysis) "Acme" Sample.duplicated_world).
  assert (length (rows_of "Acme"
                    (competitor_summary
                       (post_analyze (Sample.healthy Sample.second_analysis) "Acme"
                          Sample.duplicated_world).2)) = 2) as H2
    by (vm_compute; reflexivity).
  rewrite H in H2; [discriminate H2 | vm_compute; reflexivity].
Qed.

(** C3, amended: when the table holds at most one row for the brand, then
    after a request for it that is answered with 200 it holds exactly one;
    and a second request for the brand that is answered with 200 sends an
    update and no insert, keeps the id of that row, and leaves exactly one
    row, whose two text fields are those of the second answer. *)
Theorem success_leaves_one_row_when_at_most_one_before
    (sv : services) (brand : string) (w : world) :
  status (post_analyze sv brand w).1 = 200%Z ->
  length (rows_of brand (competitor_summary w)) <= 1 ->
  length (rows_of brand (competitor_summary (post_analyze sv brand w).2)) = 1
  /\ forall sv2 : services,
       status (post_analyze sv2 brand (post_analyze sv brand w).2).1 = 200%Z ->
       exists row analysis2,
         rows_of brand
           (competitor_summary (post_analyze sv2 brand (post_analyze sv brand w).2).2)
         = [row]
         /\ (post_analyze sv2 brand (post_analyze sv brand w).2).1
            = mk_response 200
                (Model (CompetitiveLandscapeResponse.mk brand
                          (CompetitiveLandscape.competitive_summary analysis2)
                          (CompetitiveLandscape.gaps_opportunities analysis2)))
         /\ holds_analysis analysis2 row
         /\ calls_since (post_analyze sv brand w).2
              (post_analyze sv2 brand (post_analyze sv brand w).2).2
            = [SelectId brand; Update (update_payload analysis2) brand]
         /\ (fun r : gmap string pyval => r !! "id")
              <$> rows_of brand (competitor_summary (post_analyze sv brand w).2)
            = [row !! "id"].
Proof.
  intros H200 Hle.
  pose proof (rows_after_success sv brand w H200) as Hone.
  assert (length (rows_of brand (competitor_summary (post_analyze sv brand w).2)) = 1)
    as Hlen1 by lia.
  split; [exact Hlen1 |].
  set (w1 := (post_analyze sv brand w).2) in *.
  intros sv2 H200'.
  destruct (post_analyze_200 sv2 brand w1 H200')
    as (data & analysis2 & row2 & _ & _ & _ & Hsave & Hresp).
  destruct (save_returned sv2 brand analysis2 _ _ _ Hsave)
    as (Hin & Hall & Hlen & Hupd & _).
  change (competitor_summary (fetched brand data w1)) with (competitor_summary w1)
    in Hlen, Hupd.
  change (calls_since (fetched brand data w1)) with (calls_since w1) in Hupd.
  rewrite Hlen1 in Hlen.
  destruct (rows_of brand (competitor_summary (post_analyze sv2 brand w1).2))
    as [|row [|row' rest]] eqn:Hrows; try discriminate Hlen.
  destruct Hupd as (Hcalls & Hids).
  { intros Hnil. by rewrite Hnil in Hlen1. }
  exists row, analysis2.
  split; [reflexivity |]. split; [exact Hresp |].
  split; [by apply Forall_cons in Hall as [? _] |].
  split; [exact Hcalls |].
  by rewrite <- Hids.
Qed.

Lemma success_leaves_one_row_when_at_most_one_before_witness :
  length
    (rows_of "Acme"
       (competitor_summary
          (post_analyze (Sample.healthy Sample.first_analysis) "Acme"
             Sample.empty_world).2))
  = 1.
Proof.
  apply (success_leaves_one_row_when_at_most_one_before
           (Sample.healthy Sample.first_analysis) "Acme" Sample.empty_world).
  - vm_compute. reflexivity.
  - vm_compute. lia.
Defined.

(** Running the two sample analyses in sequence from the empty table: one
    row, with the id given by the first run and the text of the second. *)
Example reanalysis_overwrites :
  competitor_summary
    (post_analyze (Sample.healthy Sample.second_analysis) "Acme"
       (post_analyze (Sample.healthy Sample.first_analysis) "Acme"
          Sample.empty_world).2).2
  = [ Sample.summary_row 1 "Acme" "two leaders" "instant redemption" ].
Proof. vm_compute. reflexivity. Qed.

(** Two first-time upserts for one brand whose existence checks both run
    before either insert: both find no row, both insert, and the table ends
    with two rows for the brand. *)
Example interleaved_first_upserts_insert_twice :
  let sv := Sample.healthy Sample.first_analysis in
  let run :=
    (seen_by_a <- execute sv (SelectId "Acme") ;;
     seen_by_b <- execute sv (SelectId "Acme") ;;
     execute sv (Insert (insert_payload "Acme" Sample.first_analysis)) ;;
     execute sv (Insert (insert_payload "Acme" Sample.second_analysis)) ;;
     ret (seen_by_a, seen_by_b)) in
  (run Sample.empty_world).1 = Returned ([], [])
  /\ length (rows_of "Acme" (competitor_summary (run Sample.empty_world).2)) = 2.
Proof. vm_compute. split; reflexivity. Qed.

Example block_of_sparse_row :
  competitor_block {[ "competitor_name" := VStr "Globex"; "competitor_weakness" := VNone ]}
  = nl +:+ "        Competitor: Globex" +:+
    nl +:+ "        Program Summary: N/A" +:+
    nl +:+ "        Market Position: N/A" +:+
    nl +:+ "        Rewards & Benefits: N/A" +:+
    nl +:+ "        User Feedback: N/A" +:+
    nl +:+ "        Strengths: N/A" +:+
    nl +:+ "        Weaknesses: None" +:+
    nl +:+ "        Opportunities: N/A" +:+
    nl +:+ "        Threats: N/A" +:+
    nl +:+ "        ---" +:+
    nl +:+ "        ".
Proof. vm_compute. reflexivity. Qed.

(** The update of an existing row fails: the error is logged twice, once by
    the upsert and once by the handler, the answer is a 500 with its text,
    and the rows are as before. *)
Example failed_update_is_a_500 :
  let r := post_analyze Sample.writes_down "Acme" Sample.settled_world in
  r.1 = mk_response 500 (Detail "statement timeout")
  /\ competitor_summary r.2 = competitor_summary Sample.settled_world
  /\ log r.2
     = [ (INFO, "Starting analysis for brand: Acme");
         (INFO, "Found data for 1 competitors");
         (ERROR, "Error saving analysis: statement timeout");
         (ERROR, "Error processing request: statement timeout") ].
Proof. vm_compute. repeat split; reflexivity. Qed.

(** * Further properties *)

(** ** The prompt *)

(** Two rows whose nine fields are rendered alike have the same block. *)
Lemma competitor_block_ext (comp comp' : gmap string pyval) :
  (forall f, f ∈ labelled_fields -> str (get comp f.2 NA) = str (get comp' f.2 NA)) ->
  competitor_block comp = competitor_block comp'.
Proof.
  intros H. rewrite !competitor_block_lines. f_equal. f_equal.
  apply list_fmap_ext. intros i f Hf.
  unfold labelled_line. rewrite (H f); [reflexivity |].
  apply list_elem_of_lookup. by exists i.
Qed.

(** X1: the block of a competitor row depends on the nine selected keys
    only: two rows that agree on them, whatever else they hold, give the same
    block. *)
Theorem block_reads_only_the_nine_keys (comp comp' : gmap string pyval) :
  (forall label key, (label, key) ∈ labelled_fields -> comp !! key = comp' !! key) ->
  competitor_block comp = competitor_block comp'.
Proof.
  intros H. apply competitor_block_ext. intros [label key] Hf.
  cbn [snd]. unfold get. by rewrite (H label key Hf).
Qed.

Lemma block_reads_only_the_nine_keys_witness :
  competitor_block (<[ "internal_notes" := VStr "do not share" ]> Sample.globex)
  = competitor_block Sample.globex.
Proof.
  apply block_reads_only_the_nine_keys.
  intros label key Hf. unfold labelled_fields in Hf.
  apply lookup_insert_ne.
  repeat (apply elem_of_cons in Hf as [[= -> ->]|Hf]; [discriminate |]).
  by apply elem_of_nil in Hf.
Defined.

(** X2: the placeholder cannot be told from stored text: a key that holds
    the string "N/A" gives the same block as the key being absent, and a key
    that holds [None] the same block as one holding the string "None". *)
Theorem placeholder_is_ambiguous (comp : gmap string pyval) (key : string) :
  competitor_block (<[ key := VStr "N/A" ]> comp) = competitor_block (delete key comp)
  /\ competitor_block (<[ key := VNone ]> comp)
     = competitor_block (<[ key := VStr "None" ]> comp).
Proof.
  split; apply competitor_block_ext; intros [label k] _; cbn [snd]; unfold get.
  - destruct (decide (key = k)) as [->|Hne].
    + by rewrite lookup_insert_eq, lookup_delete_eq.
    + by rewrite lookup_insert_ne, lookup_delete_ne.
  - destruct (decide (key = k)) as [->|Hne].
    + by rewrite !lookup_insert_eq.
    + by rewrite !lookup_insert_ne.
Qed.

(** X3: every value stored under one of the nine keys of a fetched row
    occurs in the prompt, after its label. *)
Theorem stored_fields_reach_the_prompt
    (brand_name : string) (data : list (gmap string pyval))
    (comp : gmap string pyval) (label key : string) (v : pyval) :
  comp ∈ data ->
  (label, key) ∈ labelled_fields ->
  comp !! key = Some v ->
  contains (label +:+ ": " +:+ str v) (prompt brand_name data) = true.
Proof.
  intros Hin Hf Hk. apply contains_spec.
  apply occurs_in_trans with (competitor_block comp).
  - pose proof (labelled_line_occurs comp (label, key) Hf) as H.
    cbn [fst snd] in H. by rewrite (get_present _ _ _ _ Hk) in H.
  - by apply block_occurs_in_prompt.
Qed.

Lemma stored_fields_reach_the_prompt_witness :
  contains "Strengths: large partner network" (prompt "Acme" [Sample.globex]) = true.
Proof.
  apply (stored_fields_reach_the_prompt "Acme" [Sample.globex] Sample.globex
           "Strengths" "competitor_strength" (VStr "large partner network")).
  - set_solver.
  - unfold labelled_fields. set_solver.
  - vm_compute. reflexivity.
Defined.

(** ** The table across requests *)

Lemma brand_is_other (brand other : string) (row : gmap string pyval) :
  brand_is brand row = true -> other <> brand -> brand_is other row = false.
Proof.
  unfold brand_is. intros H%bool_decide_eq_true Hne.
  apply bool_decide_eq_false. rewrite H. congruence.
Qed.

Lemma rows_of_other_update_rows
    (analysis : CompetitiveLandscape.t) (brand other : string)
    (tbl : list (gmap string pyval)) :
  other <> brand ->
  rows_of other (update_rows (update_payload analysis) brand tbl) = rows_of other tbl.
Proof.
  intros Hne. unfold rows_of, update_rows.
  induction tbl as [|row tbl IH]; [reflexivity |].
  cbn [fmap list_fmap List.filter]. fold (@fmap list _).
  destruct (brand_is brand row) eqn:Hb.
  - rewrite brand_is_set_columns, (brand_is_other brand other row Hb Hne). exact IH.
  - destruct (brand_is other row); [by f_equal | exact IH].
Qed.

Lemma set_columns_holds (analysis : CompetitiveLandscape.t) (row : gmap string pyval) :
  holds_analysis analysis row -> set_columns (update_payload analysis) row = row.
Proof.
  intros [Hcs Hgo]. apply map_eq. intros col.
  rewrite set_columns_update_payload.
  repeat case_decide; subst; by symmetry.
Qed.

Lemma update_rows_holds
    (analysis : CompetitiveLandscape.t) (brand : string)
    (tbl : list (gmap string pyval)) :
  Forall (holds_analysis analysis) (rows_of brand tbl) ->
  update_rows (update_payload analysis) brand tbl = tbl.
Proof.
  unfold rows_of, update_rows.
  induction tbl as [|row tbl IH]; [reflexivity |].
  cbn [fmap list_fmap List.filter]. fold (@fmap list _).
  destruct (brand_is brand row) eqn:Hb.
  - intros [Hrow Hall]%Forall_cons.
    f_equal; [by apply set_columns_holds | by apply IH].
  - intros Hall. f_equal. by apply IH.
Qed.

(** The table after the upsert: as before, or with the new row appended, or
    with the rows of the brand updated. *)
Lemma save_table (sv : services) (brand : string)
    (analysis : CompetitiveLandscape.t) (w : world) :
  (competitor_summary (save_landscape_analysis sv brand analysis w).2
   = competitor_summary w
   /\ next_id (save_landscape_analysis sv brand analysis w).2 = next_id w)
  \/ (rows_of brand (competitor_summary w) = []
      /\ competitor_summary (save_landscape_analysis sv brand analysis w).2
         = competitor_summary w
             ++ [<[ "id" := VInt (next_id w) ]> (insert_payload brand analysis)])
  \/ (rows_of brand (competitor_summary w) <> []
      /\ competitor_summary (save_landscape_analysis sv brand analysis w).2
         = update_rows (update_payload analysis) brand (competitor_summary w)
      /\ next_id (save_landscape_analysis sv brand analysis w).2 = next_id w).
Proof.
  destruct (save_landscape_analysis sv brand analysis w) as [o w'] eqn:H.
  save_cases H; world_simpl.
  - by left.
  - by left.
  - right. left. by split.
  - by left.
  - right. right. by repeat split.
Qed.

(** The handler, course by course. *)
Lemma post_analyze_unfold (sv : services) (brand : string) (w : world) :
  post_analyze sv brand w
  = match competitors_select sv brand with
    | Raised e =>
        (mk_response 500 (Detail (str_exn e)),
         logged ERROR ("Error processing request: " +:+ str_exn e) (started brand w))
    | Returned [] =>
        (mk_response 500 (Detail (str_exn (HTTPException 404 "No competitor data found"))),
         logged ERROR
           ("Error processing request: "
            +:+ str_exn (HTTPException 404 "No competitor data found"))
           (logged ERROR ("No competitor data found for " +:+ brand) (started brand w)))
    | Returned data =>
        match chat_completions_parse sv "gpt-4o-2024-11-20" (messages brand data) with
        | Raised e =>
            (mk_response 500 (Detail (str_exn e)),
             logged ERROR ("Error processing request: " +:+ str_exn e)
               (fetched brand data w))
        | Returned analysis =>
            match save_landscape_analysis sv brand analysis (fetched brand data w) with
            | (Returned _, w2) =>
                (mk_response 200
                   (Model (CompetitiveLandscapeResponse.mk brand
                             (CompetitiveLandscape.competitive_summary analysis)
                             (CompetitiveLandscape.gaps_opportunities analysis))),
                 w2)
            | (Raised e, w2) =>
                (mk_response 500 (Detail (str_exn e)),
                 logged ERROR ("Error processing request: " +:+ str_exn e) w2)
            end
        end
    end.
Proof.
  rewrite post_analyze_of_body.
  destruct (competitors_select sv brand) as [data|e] eqn:Hsel.
  - destruct data as [|comp data].
    + by rewrite (body_no_rows sv brand w Hsel).
    + assert (comp :: data <> []) as Hne by done.
      destruct (chat_completions_parse sv "gpt-4o-2024-11-20"
                  (messages brand (comp :: data))) as [analysis|e] eqn:Hc.
      * rewrite (body_after_completion sv brand w _ analysis Hsel Hne Hc).
        by destruct (save_landscape_analysis sv brand analysis
                       (fetched brand (comp :: data) w)) as [[row|e] w2].
      * by rewrite (body_completion_raises sv brand w _ e Hsel Hne Hc).
  - by rewrite (body_select_raises sv brand w e Hsel).
Qed.

(** The handler changes the table through the upsert only. *)
Lemma post_analyze_table (sv : services) (brand : string) (w : world) :
  competitor_summary (post_analyze sv brand w).2 = competitor_summary w
  \/ exists data analysis,
       competitor_summary (post_analyze sv brand w).2
       = competitor_summary
           (save_landscape_analysis sv brand analysis (fetched brand data w)).2.
Proof.
  rewrite post_analyze_unfold.
  destruct (competitors_select sv brand) as [[|comp data]|e]; [by left | | by left].
  destruct (chat_completions_parse sv "gpt-4o-2024-11-20"
              (messages brand (comp :: data))) as [analysis|e]; [| by left].
  right. exists (comp :: data), analysis.
  by destruct (save_landscape_analysis sv brand analysis
                 (fetched brand (comp :: data) w)) as [[row|e] w2].
Qed.

Lemma rows_of_inserted_other (analysis : CompetitiveLandscape.t)
    (brand other : string) (nid : Z) (tbl : list (gmap string pyval)) :
  other <> brand ->
  rows_of other (tbl ++ [<[ "id" := VInt nid ]> (insert_payload brand analysis)])
  = rows_of other tbl.
Proof.
  intros Hne. rewrite rows_of_app. unfold rows_of at 2. cbn [List.filter].
  rewrite (brand_is_other brand other _ (brand_is_inserted_row analysis brand nid) Hne).
  apply app_nil_r.
Qed.

(** The rows of any brand after a request: those of another brand are as
    before; those of the brand asked for are as many as before, or one when
    there was none. *)
Lemma post_analyze_rows (sv : services) (brand other : string) (w : world) :
  (other <> brand ->
   rows_of other (competitor_summary (post_analyze sv brand w).2)
   = rows_of other (competitor_summary w))
  /\ length (rows_of other (competitor_summary (post_analyze sv brand w).2))
     <= Nat.max 1 (length (rows_of other (competitor_summary w))).
Proof.
  destruct (post_analyze_table sv brand w) as [->|(data & analysis & ->)].
  { split; [done | lia]. }
  destruct (save_table sv brand analysis (fetched brand data w))
    as [[-> _]|[[Hnone ->]|(Hsome & -> & _)]];
    change (competitor_summary (fetched brand data w)) with (competitor_summary w) in *.
  - split; [done | lia].
  - split; [apply rows_of_inserted_other |].
    destruct (decide (other = brand)) as [->|Hne].
    + rewrite rows_of_app, Hnone. unfold rows_of. cbn [List.filter app].
      destruct (brand_is brand _); cbn [length]; lia.
    + rewrite (rows_of_inserted_other _ _ _ _ _ Hne). lia.
  - split; [apply rows_of_other_update_rows |].
    destruct (decide (other = brand)) as [->|Hne].
    + rewrite rows_of_update_rows, length_fmap. lia.
    + rewrite (rows_of_other_update_rows _ _ _ _ Hne). lia.
Qed.

Ltac log_simpl :=
  repeat (progress
            (unfold started, fetched, logged_since, calls_since, logged, stored, sent in *;
             cbn [fst snd competitor_summary next_id calls log status content] in *));
  rewrite <- ?app_assoc, ?drop_app_length, ?drop_all in *;
  cbn [app] in *.

(** X4: a request for one brand leaves the summary rows of every other
    brand as they were, whatever the request's outcome. *)
Theorem request_leaves_other_brands
    (sv : services) (brand other : string) (w : world) :
  other <> brand ->
  rows_of other (competitor_summary (post_analyze sv brand w).2)
  = rows_of other (competitor_summary w).
Proof. apply post_analyze_rows. Qed.

Lemma request_leaves_other_brands_witness :
  rows_of "Initech"
    (competitor_summary
       (post_analyze (Sample.healthy Sample.second_analysis) "Acme"
          Sample.settled_world).2)
  = rows_of "Initech" (competitor_summary Sample.settled_world).
Proof.
  apply (request_leaves_other_brands
           (Sample.healthy Sample.second_analysis) "Acme" "Initech"
           Sample.settled_world).
  discriminate.
Defined.

(** X5: requests served one after the other keep the table at one row per
    brand at most: when no brand has two rows before, none has two after,
    whatever the requests and their outcomes. *)
Theorem sequential_requests_keep_one_row_per_brand
    (requests : list (services * string)) (w : world) :
  one_row_per_brand (competitor_summary w) ->
  one_row_per_brand (competitor_summary (serve requests w)).
Proof.
  revert w. induction requests as [|[sv brand] requests IH]; intros w Hinv.
  - exact Hinv.
  - apply IH. intros other. cbn [fst snd].
    pose proof (proj2 (post_analyze_rows sv brand other w)) as Hle.
    specialize (Hinv other). lia.
Qed.

Lemma sequential_requests_keep_one_row_per_brand_witness :
  one_row_per_brand
    (competitor_summary
       (serve [ (Sample.healthy Sample.first_analysis, "Acme");
                (Sample.writes_down, "Acme");
                (Sample.healthy Sample.second_analysis, "Acme");
                (Sample.healthy Sample.first_analysis, "Initech") ]
          Sample.empty_world)).
Proof.
  apply sequential_requests_keep_one_row_per_brand.
  intros brand. cbn. lia.
Defined.

(** X6: once the upsert has returned, running it again for the same brand
    with the same analysis changes neither the rows nor the id sequence,
    whether the second run succeeds or fails. *)
Theorem saving_again_changes_nothing
    (sv sv2 : services) (brand : string) (analysis : CompetitiveLandscape.t)
    (w w1 : world) (row : gmap string pyval) :
  save_landscape_analysis sv brand analysis w = (Returned row, w1) ->
  competitor_summary (save_landscape_analysis sv2 brand analysis w1).2
  = competitor_summary w1
  /\ next_id (save_landscape_analysis sv2 brand analysis w1).2 = next_id w1.
Proof.
  intros H.
  destruct (save_returned sv brand analysis _ _ _ H) as (Hin & Hall & _).
  destruct (save_table sv2 brand analysis w1)
    as [Hsame|[[Hnone _]|(_ & Htbl & Hid)]].
  - exact Hsame.
  - rewrite Hnone in Hin. by apply elem_of_nil in Hin.
  - split; [| exact Hid]. rewrite Htbl. by apply update_rows_holds.
Qed.

Lemma saving_again_changes_nothing_witness :
  competitor_summary
    (save_landscape_analysis Sample.writes_down "Acme" Sample.first_analysis
       (save_landscape_analysis (Sample.healthy Sample.first_analysis) "Acme"
          Sample.first_analysis Sample.settled_world).2).2
  = competitor_summary
      (save_landscape_analysis (Sample.healthy Sample.first_analysis) "Acme"
         Sample.first_analysis Sample.settled_world).2.
Proof.
  destruct (save_landscape_analysis (Sample.healthy Sample.first_analysis) "Acme"
              Sample.first_analysis Sample.settled_world) as [[row|e] w1] eqn:Hsave.
  - apply (saving_again_changes_nothing
             (Sample.healthy Sample.first_analysis) Sample.writes_down "Acme"
             Sample.first_analysis Sample.settled_world w1 row Hsave).
  - vm_compute in Hsave. discriminate Hsave.
Defined.

(** X7: the row the upsert returns is a row of the table afterwards, it
    belongs to the brand, and its two text fields are those of the analysis. *)
Theorem saved_row_is_in_the_table
    (sv : services) (brand : string) (analysis : CompetitiveLandscape.t)
    (w w2 : world) (row : gmap string pyval) :
  save_landscape_analysis sv brand analysis w = (Returned row, w2) ->
  row ∈ competitor_summary w2
  /\ row !! "brand_name" = Some (VStr brand)
  /\ holds_analysis analysis row.
Proof.
  intros H.
  destruct (save_returned sv brand analysis _ _ _ H) as (Hin & Hall & _).
  pose proof Hin as Hin'.
  apply list_elem_of_In, List.filter_In in Hin' as [Hmem Hb].
  split; [by apply list_elem_of_In |].
  split; [by apply bool_decide_eq_true in Hb |].
  by apply (proj1 (Forall_forall _ _) Hall).
Qed.

Lemma saved_row_is_in_the_table_witness :
  Sample.summary_row 1 "Acme" "crowded market" "no tiered rewards"
  ∈ competitor_summary
      (save_landscape_analysis (Sample.healthy Sample.first_analysis) "Acme"
         Sample.first_analysis Sample.empty_world).2.
Proof.
  apply (saved_row_is_in_the_table
           (Sample.healthy Sample.first_analysis) "Acme" Sample.first_analysis
           Sample.empty_world _
           (Sample.summary_row 1 "Acme" "crowded market" "no tiered rewards")).
  vm_compute. reflexivity.
Defined.

(** ** What a request sends and logs *)

(** X8: a request sends the summary table nothing, or the existence check
    alone, or the existence check and then one write; and it sends anything
    only when the competitor rows were read and not empty and the completion
    service returned. *)
Theorem request_sends_at_most_one_write
    (sv : services) (brand : string) (w : world) :
  (calls_since w (post_analyze sv brand w).2 = []
   \/ calls_since w (post_analyze sv brand w).2 = [SelectId brand]
   \/ exists c, is_write c = true
                /\ calls_since w (post_analyze sv brand w).2 = [SelectId brand; c])
  /\ (calls_since w (post_analyze sv brand w).2 <> [] ->
      exists data analysis,
        competitors_select sv brand = Returned data
        /\ data <> []
        /\ chat_completions_parse sv "gpt-4o-2024-11-20" (messages brand data)
           = Returned analysis).
Proof.
  rewrite post_analyze_unfold.
  destruct (competitors_select sv brand) as [[|comp data]|e] eqn:Hsel.
  - log_simpl. split; [by left | done].
  - destruct (chat_completions_parse sv "gpt-4o-2024-11-20"
                (messages brand (comp :: data))) as [analysis|e] eqn:Hc.
    + split; [| intros _; by exists (comp :: data), analysis].
      destruct (save_landscape_analysis sv brand analysis
                  (fetched brand (comp :: data) w)) as [o w2] eqn:Hsave.
      save_cases Hsave; log_simpl.
      * right. by left.
      * right. right. eexists. split; [| reflexivity]. reflexivity.
      * right. right. eexists. split; [| reflexivity]. reflexivity.
      * right. right. eexists. split; [| reflexivity]. reflexivity.
      * right. right. eexists. split; [| reflexivity]. reflexivity.
    + log_simpl. split; [by left | done].
  - log_simpl. split; [by left | done].
Qed.

Ltac error_was_logged H :=
  exfalso; eapply H;
  repeat first [apply list_elem_of_here | apply list_elem_of_further].

Ltac no_error_in Hin :=
  repeat (apply elem_of_cons in Hin as [Hin|Hin]; [discriminate Hin |]);
  by apply elem_of_nil in Hin.

(** X9: a request is answered with 200 exactly when it logged no record at
    ERROR level. *)
Theorem ok_iff_no_error_logged (sv : services) (brand : string) (w : world) :
  status (post_analyze sv brand w).1 = 200%Z
  <-> forall msg, (ERROR, msg) ∉ logged_since w (post_analyze sv brand w).2.
Proof.
  rewrite post_analyze_unfold.
  destruct (competitors_select sv brand) as [[|comp data]|e] eqn:Hsel.
  - log_simpl. split; [discriminate |]. intros H. error_was_logged H.
  - destruct (chat_completions_parse sv "gpt-4o-2024-11-20"
                (messages brand (comp :: data))) as [analysis|e] eqn:Hc.
    + destruct (save_landscape_analysis sv brand analysis
                  (fetched brand (comp :: data) w)) as [o w2] eqn:Hsave.
      save_cases Hsave; log_simpl.
      * split; [discriminate |]. intros H. error_was_logged H.
      * split; [discriminate |]. intros H. error_was_logged H.
      * split; [| done]. intros _ msg Hin. no_error_in Hin.
      * split; [discriminate |]. intros H. error_was_logged H.
      * split; [| done]. intros _ msg Hin. no_error_in Hin.
    + log_simpl. split; [discriminate |]. intros H. error_was_logged H.
  - log_simpl. split; [discriminate |]. intros H. error_was_logged H.
Qed.

(** ** Startup *)

Lemma truthy_false (v : option string) :
  truthy v = false <-> v = None \/ v = Some "".
Proof.
  destruct v as [[|c s]|]; cbn; split; intros H; try done; eauto.
  by destruct H.
Qed.

Lemma truthy_true (v : option string) :
  truthy v = true <-> exists s, v = Some s /\ s <> "".
Proof.
  destruct v as [[|c s]|]; cbn; split; try done.
  - by intros (s & [= <-] & Hs).
  - intros _. by eexists.
  - by intros (s & [=] & _).
Qed.

(** X10: startup never fails and never touches the summary table; it logs
    the error "Missing required environment variables!" exactly when one of
    OPENAI_API_KEY, SUPABASE_URL and SUPABASE_KEY is unset or empty, and the
    record that all are set exactly when each has a non-empty value. *)
Theorem startup_reports_missing_environment
    (environ : gmap string string) (w : world) :
  (lifespan_startup environ w).1 = Returned tt
  /\ competitor_summary (lifespan_startup environ w).2 = competitor_summary w
  /\ calls (lifespan_startup environ w).2 = calls w
  /\ ((ERROR, "Missing required environment variables!")
        ∈ logged_since w (lifespan_startup environ w).2
      <-> exists key,
            key ∈ ["OPENAI_API_KEY"; "SUPABASE_URL"; "SUPABASE_KEY"]
            /\ (environ !! key = None \/ environ !! key = Some ""))
  /\ ((INFO, "All required environment variables are set")
        ∈ logged_since w (lifespan_startup environ w).2
      <-> forall key,
            key ∈ ["OPENAI_API_KEY"; "SUPABASE_URL"; "SUPABASE_KEY"] ->
            exists s, environ !! key = Some s /\ s <> "").
Proof.
  unfold lifespan_startup, bind, logger_info, logger_error, getenv.
  cbn [forallb].
  destruct (truthy (environ !! "OPENAI_API_KEY")) eqn:H1;
    [destruct (truthy (environ !! "SUPABASE_URL")) eqn:H2;
     [destruct (truthy (environ !! "SUPABASE_KEY")) eqn:H3 |] |];
    cbn [andb negb]; log_simpl;
    (split; [reflexivity |]); (split; [reflexivity |]); (split; [reflexivity |]).
  - (* all three set *)
    split; split.
    + intros Hin. no_error_in Hin.
    + intros (key & Hkey & Hmiss). apply truthy_false in Hmiss.
      repeat (apply elem_of_cons in Hkey as [->|Hkey]; [congruence |]).
      by apply elem_of_nil in Hkey.
    + intros _ key Hkey. apply truthy_true.
      repeat (apply elem_of_cons in Hkey as [->|Hkey]; [done |]).
      by apply elem_of_nil in Hkey.
    + intros _. repeat first [apply list_elem_of_here | apply list_elem_of_further].
  - (* SUPABASE_KEY missing *)
    split; split.
    + intros _. exists "SUPABASE_KEY". split; [set_solver | by apply truthy_false].
    + intros _. repeat first [apply list_elem_of_here | apply list_elem_of_further].
    + intros Hin. no_error_in Hin.
    + intros H. specialize (H "SUPABASE_KEY").
      apply truthy_true in H; [congruence | set_solver].
  - (* SUPABASE_URL missing *)
    split; split.
    + intros _. exists "SUPABASE_URL". split; [set_solver | by apply truthy_false].
    + intros _. repeat first [apply list_elem_of_here | apply list_elem_of_further].
    + intros Hin. no_error_in Hin.
    + intros H. specialize (H "SUPABASE_URL").
      apply truthy_true in H; [congruence | set_solver].
  - (* OPENAI_API_KEY missing *)
    split; split.
    + intros _. exists "OPENAI_API_KEY". split; [set_solver | by apply truthy_false].
    + intros _. repeat first [apply list_elem_of_here | apply list_elem_of_further].
    + intros Hin. no_error_in Hin.
    + intros H. specialize (H "OPENAI_API_KEY").
      apply truthy_true in H; [congruence | set_solver].
Qed.

(** An empty value counts as missing. *)
Example startup_with_empty_key :
  logged_since Sample.empty_world
    (lifespan_startup
       {[ "OPENAI_API_KEY" := ""; "SUPABASE_URL" := "https://db.example";
          "SUPABASE_KEY" := "secret" ]}
       Sample.empty_world).2
  = [ (INFO, "Starting up application...");
      (INFO, "Checking environment variables...");
      (ERROR, "Missing required environment variables!") ].
Proof. vm_compute. reflexivity. Qed.
